(** * loto: draw results, formats, history loading and generation

    A shallow embedding of [loto.py] and the properties of its
    result-matching and format-classification engine.

    Conventions of the embedding:
    - a Python [int] is a [Z]; a [str] is a [string] (ASCII text);
    - a raised exception is a value [Raise e] of the [result] type;
    - [warnings.warn] and [print] append an [event] to an output log that
      is threaded through the effectful functions and survives a raise;
    - the random source is an explicit stream of raw choices. *)

From Stdlib Require Import ZArith Ascii String.
From stdpp Require Import base decidable list sorting gmap strings.

Local Open Scope string_scope.
Local Open Scope Z_scope.

(** ** Exceptions and results *)

Inductive exn : Set :=
| KeyError | ValueError | TypeError | NotImplementedError
| OSError | UnicodeDecodeError.

Inductive result (A : Type) : Type :=
| Ok (a : A)
| Raise (e : exn).
Arguments Ok {A} a.
Arguments Raise {A} e.

Definition returns {A} (r : result A) : Prop := ∃ a, r = Ok a.

(** ** LotoResult *)

(** [datetime]: the patterns used by the program only set the calendar
    date, the time of day stays at midnight. *)
Record datetime : Set := mkDate { year : Z; month : Z; day : Z }.

Record LotoResult : Set := mkLotoResult {
  grid : list Z;
  chance : list Z;
  date : option datetime;
}.

(** The values a comparison can meet on its right-hand side. *)
Inductive pyobj : Set :=
| PyLoto (r : LotoResult)
| PyInt (n : Z)
| PyStr (s : string)
| PyNone.

(** [sorted(l)] on integers: the ascending rearrangement of [l]. *)
Definition sorted (l : list Z) : list Z := merge_sort Z.le l.

(** [all(i in ys for i in xs)] *)
Definition all_in (xs ys : list Z) : bool :=
  forallb (λ i, bool_decide (i ∈ ys)) xs.

(** [LotoResult.__eq__] *)
Definition LotoResult_eq (self : LotoResult) (other : pyobj) : result bool :=
  match other with
  | PyLoto other =>
      if decide (length (grid self) = length (grid other)) then
        Ok (bool_decide (sorted (grid self) = sorted (grid other)))
      else if decide (length (grid self) < length (grid other))%nat then
        Ok (all_in (grid self) (grid other))
      else
        Ok (all_in (grid other) (grid self))
  | _ => Raise NotImplementedError
  end.

(** [LotoResult.__ne__] *)
Definition LotoResult_ne (self : LotoResult) (other : pyobj) : result bool :=
  match other with
  | PyLoto _ =>
      match LotoResult_eq self other with
      | Ok b => Ok (negb b)
      | Raise e => Raise e
      end
  | _ => Raise NotImplementedError
  end.

(** [x in results] for a list of results: [any(x == e for e in results)].
    Both operands are results, so the comparison never raises. *)
Definition eqb_result (a b : LotoResult) : bool :=
  match LotoResult_eq a (PyLoto b) with
  | Ok v => v
  | Raise _ => false
  end.

Definition result_in (x : LotoResult) (results : list LotoResult) : bool :=
  existsb (eqb_result x) results.

(** Two results of equal length over the same numbers, with different
    multiplicities. *)
Definition dup_a : LotoResult := mkLotoResult [1; 1; 2] [] None.
Definition dup_b : LotoResult := mkLotoResult [1; 2; 2] [] None.

(** ** Text: [str], [int], [join], [split], [partition] *)

Definition is_digit (c : ascii) : bool :=
  let n := Z.of_nat (nat_of_ascii c) in (48 <=? n) && (n <=? 57).

Definition digit_val (c : ascii) : Z := Z.of_nat (nat_of_ascii c) - 48.

Definition digit_char (d : Z) : ascii := ascii_of_nat (Z.to_nat (48 + d)).

(** The decimal digits of a natural number, most significant first; the
    fuel bounds the number of digits after the first. *)
Fixpoint digits_of (fuel : nat) (n : Z) (acc : string) : string :=
  let acc' := String (digit_char (n mod 10)) acc in
  match fuel with
  | O => acc'
  | S f => if n <? 10 then acc' else digits_of f (n / 10) acc'
  end.

(** [str(n)] for an integer. (The interpreter's cap on the number of
    digits of a conversion is not modelled.) *)
Definition py_str (n : Z) : string :=
  if n <? 0 then String "-" (digits_of (Z.to_nat (Z.log2 (- n))) (- n) "")
  else digits_of (Z.to_nat (Z.log2 n)) n "".

(** The white space [int] strips from both ends of an ASCII text: tab,
    line feed, vertical tab, form feed, carriage return and space. *)
Definition is_space (c : ascii) : bool :=
  let n := Z.of_nat (nat_of_ascii c) in
  ((9 <=? n) && (n <=? 13)) || (n =? 32).

Fixpoint lstrip (s : string) : string :=
  match s with
  | String c s' => if is_space c then lstrip s' else s
  | EmptyString => EmptyString
  end.

Fixpoint rstrip (s : string) : string :=
  match s with
  | EmptyString => EmptyString
  | String c s' =>
      match rstrip s' with
      | EmptyString => if is_space c then EmptyString else String c EmptyString
      | t => String c t
      end
  end.

(** Digits of an integer literal: decimal digits, single underscores
    allowed between two digits. [prev] tells whether the previous
    character was a digit. *)
Fixpoint int_digits (acc : Z) (prev : bool) (s : string) : option Z :=
  match s with
  | EmptyString => if prev then Some acc else None
  | String c s' =>
      if is_digit c then int_digits (10 * acc + digit_val c) true s'
      else if Ascii.eqb c "_" && prev then int_digits acc false s'
      else None
  end.

(** [int(s)] for a string: surrounding white space, an optional sign, then
    the digits; anything else raises [ValueError]. *)
Definition py_int (s : string) : result Z :=
  let body := rstrip (lstrip s) in
  let '(sign, ds) :=
    match body with
    | String c t =>
        if Ascii.eqb c "-" then (-1, t)
        else if Ascii.eqb c "+" then (1, t)
        else (1, body)
    | EmptyString => (1, body)
    end in
  match int_digits 0 false ds with
  | Some n => Ok (sign * n)
  | None => Raise ValueError
  end.

(** Every character of [s] satisfies [P]. *)
Fixpoint all_chars (P : ascii → bool) (s : string) : bool :=
  match s with
  | EmptyString => true
  | String c s' => P c && all_chars P s'
  end.

(** [c in s] for a character [c]. *)
Fixpoint has_char (c : ascii) (s : string) : bool :=
  match s with
  | EmptyString => false
  | String c' s' => Ascii.eqb c' c || has_char c s'
  end.

(** [sep.join(l)] *)
Fixpoint join (sep : string) (l : list string) : string :=
  match l with
  | [] => EmptyString
  | [w] => w
  | w :: l' => w +:+ sep +:+ join sep l'
  end.

(** [s.split(sep)] for a separator of one character, as in every call of
    the program; the result is never empty. *)
Fixpoint split (sep : ascii) (s : string) : list string :=
  match s with
  | EmptyString => [EmptyString]
  | String c s' =>
      if Ascii.eqb c sep then EmptyString :: split sep s'
      else match split sep s' with
           | w :: ws => String c w :: ws
           | [] => [String c EmptyString]
           end
  end.

(** [s.partition(sep)] for a separator of one character. *)
Fixpoint partition (sep : ascii) (s : string) : string * string * string :=
  match s with
  | EmptyString => (EmptyString, EmptyString, EmptyString)
  | String c s' =>
      if Ascii.eqb c sep then (EmptyString, String sep EmptyString, s')
      else let '(h, m, t) := partition sep s' in (String c h, m, t)
  end.

(** [[f(x) for x in l]] where [f] may raise: the first raise wins. *)
Fixpoint traverse {A B} (f : A → result B) (l : list A) : result (list B) :=
  match l with
  | [] => Ok []
  | x :: l' =>
      match f x with
      | Ok y => match traverse f l' with
                | Ok ys => Ok (y :: ys)
                | Raise e => Raise e
                end
      | Raise e => Raise e
      end
  end.

(** ** Canonical text of a result and its parser *)

(** Two-digit, zero-padded rendering ([%d], [%m]). *)
Definition pad2 (n : Z) : string :=
  if n <? 10 then String "0" (py_str n) else py_str n.

(** [f"{d:%d-%m-%Y}"] *)
Definition strftime_dmY (d : datetime) : string :=
  pad2 (day d) +:+ "-" +:+ pad2 (month d) +:+ "-" +:+ py_str (year d).

(** [LotoResult.__str__] *)
Definition LotoResult_str (self : LotoResult) : string :=
  let date :=
    match date self with
    | Some d => " le " +:+ strftime_dmY d
    | None => ""
    end in
  "tirage=" +:+ join "-" (map py_str (sorted (grid self))) +:+ "+"
  +:+ join "+" (map py_str (sorted (chance self))) +:+ date.

(** [LotoResult.from_string]: every exception of the conversion is turned
    into a [ValueError]. *)
Definition from_string (input_string : string) : result LotoResult :=
  let '(grid_str, _, chance_str) := partition "+" input_string in
  match traverse py_int (split "-" grid_str),
        traverse py_int (split "+" chance_str) with
  | Ok grid, Ok chance => Ok (mkLotoResult grid chance None)
  | _, _ => Raise ValueError
  end.

Definition draw_12345_6 : LotoResult := mkLotoResult [3; 1; 2; 5; 4] [6] None.

(** ** Format classes *)

(** The patterns the program hands to [re.match]: a sequence of items,
    each matching one character, anchored at the start of the text and
    free at its end. *)
Inductive re_item : Set :=
| ReChar (c : ascii)
| ReRange (lo hi : ascii).

Definition regex : Set := list re_item.

Definition re_lit (s : string) : regex := map ReChar (list_ascii_of_string s).

Definition item_matches (i : re_item) (c : ascii) : bool :=
  match i with
  | ReChar c' => Ascii.eqb c c'
  | ReRange lo hi =>
      (nat_of_ascii lo <=? nat_of_ascii c)%nat && (nat_of_ascii c <=? nat_of_ascii hi)%nat
  end.

(** [re.match(p, s) is not None] *)
Fixpoint re_match (p : regex) (s : string) : bool :=
  match p with
  | [] => true
  | i :: p' =>
      match s with
      | EmptyString => false
      | String c s' => item_matches i c && re_match p' s'
      end
  end.

(** [h.startswith(p)] *)
Definition startswith (h p : string) : bool := String.prefix p h.

(** The class attributes of [LotoFormat] and of its subclasses. *)
Record LotoFormat : Set := mkLotoFormat {
  CHANCE_NB : Z;
  CHANCE_PREFIX : string;
  BOULES_NB : Z;
  BOULE_PREFIX : string;
  DATE_KEY : string;
  MAX : Z;
  MAX_CHANCE : Z;
  WHITELIST_BOULE : option regex;
}.

(** The three subclasses; [class_attrs] gives the attributes each one
    defines or inherits. *)
Inductive loto_class : Set := Loto5Boules | Loto6Boules | EuroMillion.

Definition class_attrs (c : loto_class) : LotoFormat :=
  match c with
  | Loto5Boules =>
      {| CHANCE_PREFIX := "numero_chance"; CHANCE_NB := 1; BOULES_NB := 5;
         WHITELIST_BOULE :=
           Some (re_lit "boule_" ++ [ReRange "1" "5"] ++ re_lit "_second_tirage")%list;
         BOULE_PREFIX := "boule_"; DATE_KEY := "date_de_tirage";
         MAX := 49; MAX_CHANCE := 10 |}
  | Loto6Boules =>
      {| CHANCE_PREFIX := "boule_complementaire"; CHANCE_NB := 1; BOULES_NB := 6;
         WHITELIST_BOULE := None;
         BOULE_PREFIX := "boule_"; DATE_KEY := "date_de_tirage";
         MAX := 49; MAX_CHANCE := 10 |}
  | EuroMillion =>
      {| CHANCE_PREFIX := "etoile_"; MAX_CHANCE := 12; CHANCE_NB := 2;
         BOULES_NB := 5; MAX := 50;
         WHITELIST_BOULE := None;
         BOULE_PREFIX := "boule_"; DATE_KEY := "date_de_tirage" |}
  end.
Coercion class_attrs : loto_class >-> LotoFormat.

(** [LOTO_FORMATS], in insertion order. *)
Definition LOTO_FORMATS : list (string * loto_class) :=
  [("5_boules", Loto5Boules); ("6_boules", Loto6Boules);
   ("euromillion", EuroMillion)].

Definition formatter (prefix : string) (idx : Z) : string := prefix +:+ py_str idx.

(** [LotoFormat.boule_keys]; [seqZ 1 n] is [range(1, n + 1)]. *)
Definition boule_keys (cls : LotoFormat) : list string :=
  if decide (BOULES_NB cls = 1) then [BOULE_PREFIX cls]
  else map (formatter (BOULE_PREFIX cls)) (seqZ 1 (BOULES_NB cls)).

(** [LotoFormat.chance_keys] *)
Definition chance_keys (cls : LotoFormat) : list string :=
  if decide (CHANCE_NB cls = 1) then [CHANCE_PREFIX cls]
  else map (formatter (CHANCE_PREFIX cls)) (seqZ 1 (CHANCE_NB cls)).

(** [LotoFormat.whitelist] *)
Definition whitelist (cls : LotoFormat) (key : string) : bool :=
  match WHITELIST_BOULE cls with
  | None => false
  | Some p => re_match p key
  end.

(** [LotoFormat.is_one], on a result or on a header. *)
Definition is_one (cls : LotoFormat) (to_compare : LotoResult + list string) : bool :=
  match to_compare with
  | inl r =>
      bool_decide (Z.of_nat (length (remove_dups (grid r))) = BOULES_NB cls) &&
      bool_decide (Z.of_nat (length (remove_dups (chance r))) = CHANCE_NB cls) &&
      forallb (λ i, (0 <? i) && (i <=? MAX cls)) (grid r) &&
      forallb (λ i, (0 <? i) && (i <=? MAX_CHANCE cls)) (chance r)
  | inr header =>
      forallb (λ boule, bool_decide (boule ∈ header)) (boule_keys cls) &&
      forallb (λ chance, bool_decide (chance ∈ header)) (chance_keys cls) &&
      bool_decide
        (length
           (List.filter
              (λ h, (startswith h (BOULE_PREFIX cls) || startswith h (CHANCE_PREFIX cls))
                    && negb (bool_decide (h ∈ (boule_keys cls ++ chance_keys cls)%list))
                    && negb (whitelist cls h))
              header) = 0%nat)
  end.

(** The first class of [LOTO_FORMATS] whose [is_one] accepts the header. *)
Definition classify (header : list string) : option loto_class :=
  List.find (λ c : loto_class, is_one c (inr header)) (LOTO_FORMATS.*2).

Definition header_5_boules : list string :=
  ["boule_1"; "boule_2"; "boule_3"; "boule_4"; "boule_5"; "numero_chance";
   "date_de_tirage"].

(** A header that holds exactly the seven columns of the five-ball
    layout, in any order and with any repetition. *)
Definition exactly_5_boules (header : list string) : Prop :=
  ∀ h, h ∈ header ↔ h ∈ header_5_boules.

(** ** Effects: exceptions and reported messages *)

(** What the program reports while it loads files. *)
Inductive event : Set :=
| WarnDate (loto_date date_fmt : string)
    (* [warnings.warn(str(e))] after a failed [strptime] *)
| WarnNoFormat (filename : string) (header : list string)
    (* [warnings.warn("No format found to process ...")] *)
| PrintError (filename : string) (e : exn).
    (* [print("An error occur when processing ...")] *)

(** A computation that reports messages and then returns or raises; the
    messages reported before a raise are kept. *)
Definition Py (A : Type) : Type := result A * list event.

Definition py_ret {A} (a : A) : Py A := (Ok a, []).
Definition py_raise {A} (e : exn) : Py A := (Raise e, []).
Definition py_lift {A} (r : result A) : Py A := (r, []).
Definition py_emit (ev : event) : Py unit := (Ok tt, [ev]).

Definition py_bind {A B} (k : A → Py B) (m : Py A) : Py B :=
  match m with
  | (Ok a, out) => let '(r, out') := k a in (r, (out ++ out')%list)
  | (Raise e, out) => (Raise e, out)
  end.

(** [try: m  except Exception as e: h(e)] *)
Definition py_try {A} (m : Py A) (h : exn → Py A) : Py A :=
  match m with
  | (Ok a, out) => (Ok a, out)
  | (Raise e, out) => let '(r, out') := h e in (r, (out ++ out')%list)
  end.

Definition result_bind {A B} (k : A → result B) (m : result A) : result B :=
  match m with
  | Ok a => k a
  | Raise e => Raise e
  end.

#[global] Instance Py_mret : MRet Py := @py_ret.
#[global] Instance Py_mbind : MBind Py := @py_bind.
#[global] Instance result_mret : MRet result := @Ok.
#[global] Instance result_mbind : MBind result := @result_bind.

(** ** Rows *)

(** A row as the reader hands it over: column name to cell, a cell being a
    text or [None] (the filler of a short row). *)
Abbreviation row_dict := (gmap string (option string)).

(** [line[key]] *)
Definition getitem (line : row_dict) (key : string) : result (option string) :=
  match line !! key with
  | Some v => Ok v
  | None => Raise KeyError
  end.

(** [int(v)] for a cell. *)
Definition int_cell (v : option string) : result Z :=
  match v with
  | Some s => py_int s
  | None => Raise TypeError
  end.

(** [int(line[key])] *)
Definition int_at (line : row_dict) (key : string) : result Z :=
  v ← getitem line key; int_cell v.

(** [find_date_format], for a text; the patterns are tried in this order. *)
Definition find_date_format (getted_date : string) : list string :=
  if has_char "/" getted_date then ["%d/%m/%Y"; "%d/%m/%y"; "%Y%m%d"]
  else ["%Y%m%d"].

(** [boule_{}_second_tirage] *)
Definition second_format (i : Z) : string :=
  "boule_" +:+ py_str i +:+ "_second_tirage".

(** The loop of [Loto5Boules.extract_line] that collects the second
    draw: the cells of the columns that are present, in order. *)
Fixpoint second_seq (line : row_dict) (idxs : list Z) : result (list Z) :=
  match idxs with
  | [] => Ok []
  | i :: rest =>
      match line !! second_format i with
      | Some v => n ← int_cell v; seq ← second_seq line rest; Ok (n :: seq)
      | None => second_seq line rest
      end
  end.

Section extraction.

(** [datetime.strptime], the library's date reader: any function from a
    text and a pattern to a date or an exception. *)
Variable strptime : string → string → result datetime.

(** The loop over the date patterns in [LotoFormat.extract_line]. *)
Fixpoint try_formats (grid chance : list Z) (loto_date : string)
    (fmts : list string) : Py (list LotoResult) :=
  match fmts with
  | [] => mret []
  | date_fmt :: rest =>
      match strptime loto_date date_fmt with
      | Ok d => mret [mkLotoResult grid chance (Some d)]
      | Raise _ =>
          py_emit (WarnDate loto_date date_fmt);;
          try_formats grid chance loto_date rest
      end
  end.

(** [LotoFormat.extract_line]. A date cell that is [None] makes the
    membership test of [find_date_format] raise [TypeError]. *)
Definition LotoFormat_extract_line (cls : LotoFormat) (line : row_dict)
    : Py (list LotoResult) :=
  grid ← py_lift (traverse (int_at line) (boule_keys cls));
  chance ← py_lift (traverse (int_at line) (chance_keys cls));
  loto_date ← py_lift (getitem line (DATE_KEY cls));
  match loto_date with
  | Some d => try_formats grid chance d (find_date_format d)
  | None => py_raise TypeError
  end.

(** [Loto5Boules.extract_line] *)
Definition Loto5Boules_extract_line (line : row_dict) : Py (list LotoResult) :=
  res ← LotoFormat_extract_line Loto5Boules line;
  seq ← py_lift (second_seq line (seqZ 1 (BOULES_NB Loto5Boules)));
  match seq with
  | [] => mret res
  | _ :: _ =>
      chance ← py_lift (traverse (int_at line) (chance_keys Loto5Boules));
      mret (res ++ [mkLotoResult seq chance None])%list
  end.

(** Method resolution of [extract_line]. *)
Definition extract_line (c : loto_class) (line : row_dict) : Py (list LotoResult) :=
  match c with
  | Loto5Boules => Loto5Boules_extract_line line
  | Loto6Boules | EuroMillion => LotoFormat_extract_line c line
  end.

End extraction.

(** ** Files *)

(** A path with the suffix [pathlib] computes for it. *)
Record Path : Set := mkPath { path_name : string; suffix : string }.

(** What reading one record of an open file gives: its cells, or a
    decoding failure. *)
Inductive record_read : Set :=
| Cells (cells : list string)
| Undecodable.

(** The files that can be opened, each with its records. *)
Abbreviation disk := (gmap string (list record_read)).

Record FileFormat : Set := mkFileFormat { delimiter : ascii; header : string }.

(** [SUPPORTED_FORMATS]; the reader class is [csv.DictReader] throughout. *)
Definition SUPPORTED_FORMATS : gmap string FileFormat :=
  {[ ".csv" := mkFileFormat ";" "fieldnames" ]}.

(** [DictReader.fieldnames]: the first record, [None] for an empty file. *)
Definition fieldnames (records : list record_read) : result (option (list string)) :=
  match records with
  | [] => Ok None
  | Cells h :: _ => Ok (Some h)
  | Undecodable :: _ => Raise UnicodeDecodeError
  end.

(** The dictionary [DictReader] builds for a record: [dict(zip(fieldnames,
    row))], then [None] for the columns a short row leaves out. (The extra
    cells of a long row are stored under the key [None], which no lookup
    of the program uses.) *)
Definition dict_row (fieldnames row : list string) : row_dict :=
  let d := foldl (λ d kv, <[kv.1 := Some kv.2]> d) ∅ (zip fieldnames row) in
  foldl (λ d k, <[k := None]> d) d (drop (length row) fieldnames).

Section loading.

Variable strptime : string → string → result datetime.

(** [[i for i in data_cls(reader)]]: [LotoFormat.__iter__] over the
    records left after the header; the reader skips empty records. *)
Fixpoint iter_rows (c : loto_class) (fieldnames : list string)
    (records : list record_read) : Py (list LotoResult) :=
  match records with
  | [] => mret []
  | Undecodable :: _ => py_raise UnicodeDecodeError
  | Cells [] :: rest => iter_rows c fieldnames rest
  | Cells row :: rest =>
      res ← extract_line strptime c (dict_row fieldnames row);
      more ← iter_rows c fieldnames rest;
      mret (res ++ more)%list
  end.

(** The body of the [try] in [read_loto_file]. On the header [None] of
    an empty file the first [is_one] raises [TypeError]. *)
Definition read_records (filename : Path) (records : list record_read)
    : Py (list LotoResult) :=
  header ← py_lift (fieldnames records);
  match header with
  | None => py_raise TypeError
  | Some h =>
      match classify h with
      | Some data_cls => iter_rows data_cls h (tail records)
      | None => py_emit (WarnNoFormat (path_name filename) h);; mret []
      end
  end.

(** [read_loto_file]: [open] and the lookup of the suffix are outside
    the [try]. *)
Definition read_loto_file (fs : disk) (filename : Path) : Py (list LotoResult) :=
  match fs !! path_name filename with
  | None => py_raise OSError
  | Some records =>
      match SUPPORTED_FORMATS !! suffix filename with
      | None => py_raise KeyError
      | Some format_reader =>
          py_try (read_records filename records)
                 (λ e, py_emit (PrintError (path_name filename) e);; mret [])
      end
  end.

(** [[line for f in files for line in read_loto_file(f)]] in [main]. *)
Fixpoint main_results (fs : disk) (files : list Path) : Py (list LotoResult) :=
  match files with
  | [] => mret []
  | f :: rest =>
      lines ← read_loto_file fs f;
      more ← main_results fs rest;
      mret (lines ++ more)%list
  end.

End loading.

(** ** A date reader for the examples *)

(** Fixed-width decimal fields checked against the calendar: the dates of
    the data files. It stands for [datetime.strptime] where an example is
    run; every general statement holds for any reader. *)
Definition digits_value (s : string) : option Z :=
  if all_chars is_digit s then int_digits 0 false s else None.

Definition days_in_month (y m : Z) : Z :=
  if decide (m = 2) then
    if decide (y mod 4 = 0 ∧ (y mod 100 ≠ 0 ∨ y mod 400 = 0)) then 29 else 28
  else if decide (m = 4 ∨ m = 6 ∨ m = 9 ∨ m = 11) then 30 else 31.

Definition calendar_date (y m d : Z) : result datetime :=
  if decide (1 ≤ y ∧ 1 ≤ m ≤ 12 ∧ 1 ≤ d ≤ days_in_month y m)
  then Ok (mkDate y m d) else Raise ValueError.

Definition fixed_width_strptime (date_string format : string) : result datetime :=
  let field (s : string) (width : nat) : option Z :=
    if decide (String.length s = width) then digits_value s else None in
  if String.eqb format "%Y%m%d" then
    match field (substring 0 4 date_string) 4%nat,
          field (substring 4 2 date_string) 2%nat,
          field (substring 6 2 date_string) 2%nat with
    | Some y, Some m, Some d =>
        if decide (String.length date_string = 8%nat) then calendar_date y m d
        else Raise ValueError
    | _, _, _ => Raise ValueError
    end
  else
    match split "/" date_string with
    | [d; m; y] =>
        match field d 2%nat, field m 2%nat with
        | Some d, Some m =>
            if String.eqb format "%d/%m/%Y" then
              match field y 4%nat with
              | Some y => calendar_date y m d
              | None => Raise ValueError
              end
            else if String.eqb format "%d/%m/%y" then
              match field y 2%nat with
              | Some y => calendar_date (if y <? 69 then 2000 + y else 1900 + y) m d
              | None => Raise ValueError
              end
            else Raise ValueError
        | _, _ => Raise ValueError
        end
    | _ => Raise ValueError
    end.

(** ** Example rows and files *)

Definition header_second_tirage : list string :=
  (header_5_boules ++
   ["boule_1_second_tirage"; "boule_2_second_tirage"; "boule_3_second_tirage";
    "boule_4_second_tirage"; "boule_5_second_tirage"])%list.

Definition row_ok : list string := ["1"; "2"; "3"; "4"; "5"; "6"; "20200101"].
Definition row_other : list string := ["7"; "8"; "9"; "10"; "11"; "3"; "04/01/2020"].
Definition row_bad_date : list string := ["1"; "2"; "3"; "4"; "5"; "6"; "2020-01-01"].
Definition row_bad_number : list string := ["x"; "2"; "3"; "4"; "5"; "6"; "20200101"].
Definition row_second_tirage : list string :=
  ["1"; "2"; "3"; "4"; "5"; "6"; "20200101"; "11"; "12"; "13"; "14"; "15"].
Definition row_second_tirage_bad_date : list string :=
  ["1"; "2"; "3"; "4"; "5"; "6"; "01.01.2020"; "11"; "12"; "13"; "14"; "15"].

Definition row_second_tirage_blank_cell : list string :=
  ["1"; "2"; "3"; "4"; "5"; "6"; "20200101"; "11"; ""; "13"; "14"; "15"].
Definition row_second_tirage_blank_cell_bad_date : list string :=
  ["1"; "2"; "3"; "4"; "5"; "6"; "01.01.2020"; "11"; ""; "13"; "14"; "15"].

Definition loto_csv : Path := mkPath "loto.csv" ".csv".
Definition missing_csv : Path := mkPath "missing.csv" ".csv".

Definition disk_bad_number : disk :=
  {[ "loto.csv" := [Cells header_5_boules; Cells row_bad_number; Cells row_other] ]}.
Definition disk_good : disk :=
  {[ "loto.csv" := [Cells header_5_boules; Cells row_ok; Cells row_other] ]}.
Definition disk_bad_date : disk :=
  {[ "loto.csv" := [Cells header_5_boules; Cells row_bad_date; Cells row_other] ]}.
Definition disk_second_tirage_blank_cell : disk :=
  {[ "loto.csv" := [Cells header_second_tirage; Cells row_second_tirage;
                    Cells row_second_tirage_blank_cell_bad_date] ]}.
Definition disk_second_tirage : disk :=
  {[ "loto.csv" := [Cells header_second_tirage; Cells row_second_tirage;
                    Cells row_second_tirage_bad_date] ]}.

(** ** Random generation *)

(** The random source: the stream of raw draws still to come. A
    computation that draws returns its value and the rest of the stream. *)
Definition rng : Type := nat → nat.
Definition Rand (A : Type) : Type := rng → A * rng.

(** A draw below [n]: every value of [0 .. n-1] is the outcome of some
    stream. *)
Definition randbelow (n : nat) : Rand nat :=
  λ s, ((s 0%nat mod n)%nat, λ i, s (S i)).

(** The selection loop of [random.sample] over a pool of which the first
    [n] cells are still available: draw a cell, return its content, and
    move the last available cell into its place. *)
Fixpoint sample_pool (pool : list Z) (n k : nat) : Rand (list Z) :=
  match k with
  | O => λ s, ([], s)
  | S k' => λ s,
      let '(j, s1) := randbelow n s in
      let x := pool !!! j in
      let pool' := <[j := pool !!! (n - 1)%nat]> pool in
      let '(rest, s2) := sample_pool pool' (n - 1) k' s1 in
      (x :: rest, s2)
  end.

(** [random.sample(population, k)]: [k] cells chosen without replacement;
    [ValueError] when [k] is negative or larger than the population. The
    library picks the cells with the pool loop above for a small
    population and with a rejection loop over the indices already chosen
    for a large one; both return [k] distinct cells of the population, and
    the pool loop stands here for both. A population too long for the
    interpreter to index is not modelled. *)
Definition sample (population : list Z) (k : Z) : Rand (result (list Z)) :=
  λ s,
    if decide (0 ≤ k ≤ Z.of_nat (length population)) then
      let '(r, s') := sample_pool population (length population) (Z.to_nat k) s in
      (Ok r, s')
    else (Raise ValueError, s).

(** [LotoFormat.generate] *)
Definition generate (cls : LotoFormat) : Rand (result LotoResult) :=
  λ s,
    match sample (seqZ 1 (MAX cls)) (BOULES_NB cls) s with
    | (Ok grid, s1) =>
        match sample (seqZ 1 (MAX_CHANCE cls)) (CHANCE_NB cls) s1 with
        | (Ok chance, s2) => (Ok (mkLotoResult grid chance None), s2)
        | (Raise e, s2) => (Raise e, s2)
        end
    | (Raise e, s1) => (Raise e, s1)
    end.

(** [generate_tirage]: the [while] loop has no bound in the program; here
    it runs for at most [fuel] candidates and [None] stands for a loop that
    is still running. (The line printed before the loop is left out.) *)
Fixpoint generate_tirage (fuel : nat) (results : list LotoResult)
    (loto_cls : LotoFormat) (s : rng) : option (result LotoResult * rng) :=
  match fuel with
  | O => None
  | S fuel' =>
      match generate loto_cls s with
      | (Ok gen, s') =>
          if result_in gen results then generate_tirage fuel' results loto_cls s'
          else Some (Ok gen, s')
      | (Raise e, s') => Some (Raise e, s')
      end
  end.

(** A stream for the examples: 0, 1, 2, ... *)
Definition counting : rng := λ i, i.

Definition history_12345 : list LotoResult :=
  [mkLotoResult [1; 2; 3; 4; 5] [1] None].

Definition line_second_tirage : row_dict :=
  dict_row header_second_tirage row_second_tirage.
Definition line_second_tirage_bad_date : row_dict :=
  dict_row header_second_tirage row_second_tirage_bad_date.
Definition line_second_tirage_blank_cell : row_dict :=
  dict_row header_second_tirage row_second_tirage_blank_cell.
Definition line_second_tirage_blank_cell_bad_date : row_dict :=
  dict_row header_second_tirage row_second_tirage_blank_cell_bad_date.

(** ** Further examples *)

(** Three results that chain through a longer grid. *)
Definition only_1 : LotoResult := mkLotoResult [1] [] None.
Definition only_2 : LotoResult := mkLotoResult [2] [] None.
Definition both_1_2 : LotoResult := mkLotoResult [1; 2] [] None.

(** A header that carries both the five-ball and the EuroMillion columns. *)
Definition header_5_and_euro : list string :=
  ["boule_1"; "boule_2"; "boule_3"; "boule_4"; "boule_5"; "numero_chance";
   "etoile_1"; "etoile_2"; "date_de_tirage"].

(** Rows with a two-digit year and with an empty second-draw cell. *)
Definition row_short_year : list string :=
  ["7"; "8"; "9"; "10"; "11"; "3"; "04/01/20"].
Definition row_second_tirage_blank : list string :=
  ["1"; "2"; "3"; "4"; "5"; "6"; "20200101"; "11"; ""; "13"; "14"; "15"].

(** A result without main numbers, and a history that holds it. *)
Definition no_numbers : LotoResult := mkLotoResult [] [] None.
Definition history_blocked : list LotoResult :=
  [mkLotoResult [1; 2; 3; 4; 5] [1] None; no_numbers].

(** Two files, and a name under which there is none. *)
Definition other_csv : Path := mkPath "other.csv" ".csv".
Definition loto_txt : Path := mkPath "loto.txt" ".txt".
Definition disk_two_files : disk :=
  {[ "loto.csv" := [Cells header_5_boules; Cells row_ok];
     "other.csv" := [Cells header_5_boules; Cells row_other];
     "loto.txt" := [Cells header_5_boules; Cells row_ok] ]}.

(** ** The command *)

(** The errors [main] raises through [click]. *)
Inductive click_error : Set := UsageError | BadParameter | BadArgumentUsage.

(** How a run of [main] ends: normally, on an error of the command line,
    or on an exception nothing catches. *)
Inductive ending : Set :=
| Finished
| Rejected (e : click_error)
| Crashed (e : exn).

(** What a run of [main] reports, in order. *)
Inductive main_event : Set :=
| Reported (ev : event)
    (* a message of [read_loto_file] or of the extraction *)
| WarnNoFile
    (* [warnings.warn("no file found for accepted format: ...")] *)
| EchoValid (cls : loto_class) (valid : bool)
    (* [click.echo(f"Is a valid {loto_cls.__name__} ? {...}")] *)
| EchoDrawn (text : string) (drawn : bool)
    (* [click.echo(f"{exist_result} was drawn ? {...}")] *)
| PrintGeneration (cls : loto_class)
    (* [print(f"Generation for {loto_cls}")] in [generate_tirage] *)
| EchoTirage (text : string).
    (* [click.echo(generate_tirage(results, loto_cls))] *)

(** [f.suffix in SUPPORTED_FORMATS] *)
Definition supported (f : Path) : bool :=
  bool_decide (is_Some (SUPPORTED_FORMATS !! suffix f)).

(** [LOTO_FORMATS[loto_format]] *)
Definition lookup_format (loto_format : string) : option loto_class :=
  (list_to_map LOTO_FORMATS : gmap string loto_class) !! loto_format.

Section command.

Variable strptime : string → string → result datetime.

(** [main], after [click] has parsed the options: [repository] is the
    listing of the directory given by [-r] ([None] without the option),
    [file] the paths given by [-f], [exist] the text given by [-e]. The
    generation loop runs with [fuel]; [None] stands for a run whose loop is
    still going. *)
Definition main (fs : disk) (fuel : nat) (repository : option (list Path))
    (file : list Path) (loto_format : string) (exist : option string)
    (s : rng) : option (ending * list main_event * rng) :=
  if bool_decide (is_Some repository) && bool_decide (file ≠ []) then
    Some (Rejected UsageError, [], s)
  else if negb (bool_decide (is_Some repository) || bool_decide (file ≠ [])) then
    Some (Rejected UsageError, [], s)
  else if existsb (λ f, negb (supported f)) file then
    Some (Rejected BadParameter, [], s)
  else
    let '(files, warned) :=
      match repository with
      | Some listing =>
          let files := List.filter supported listing in
          (files, match files with [] => [WarnNoFile] | _ :: _ => [] end)
      | None => (file, [])
      end in
    match main_results strptime fs files with
    | (Raise e, out) => Some (Crashed e, (warned ++ map Reported out)%list, s)
    | (Ok results, out) =>
        let log := (warned ++ map Reported out)%list in
        match lookup_format loto_format with
        | None => Some (Crashed KeyError, log, s)
        | Some loto_cls =>
            match exist with
            | Some text =>
                match from_string text with
                | Raise _ => Some (Rejected BadArgumentUsage, log, s)
                | Ok exist_result =>
                    Some (Finished,
                          (log ++ [EchoValid loto_cls (is_one loto_cls (inl exist_result));
                                   EchoDrawn (LotoResult_str exist_result)
                                             (result_in exist_result results)])%list,
                          s)
                end
            | None =>
                match generate_tirage fuel results loto_cls s with
                | None => None
                | Some (Ok gen, s') =>
                    Some (Finished,
                          (log ++ [PrintGeneration loto_cls;
                                   EchoTirage (LotoResult_str gen)])%list,
                          s')
                | Some (Raise e, s') =>
                    Some (Crashed e, (log ++ [PrintGeneration loto_cls])%list, s')
                end
            end
        end
    end.

End command.

(** ** Facts on [sorted] and [all_in] *)

Section sorted_facts.

Lemma sorted_Permutation l : sorted l ≡ₚ l.
Proof. apply merge_sort_Permutation. Qed.

Lemma sorted_Sorted l : Sorted Z.le (sorted l).
Proof. apply (Sorted_merge_sort Z.le). Qed.

Lemma sorted_eq_iff l1 l2 : sorted l1 = sorted l2 ↔ l1 ≡ₚ l2.
Proof.
  split.
  - intros E. rewrite <- (sorted_Permutation l1), E. apply sorted_Permutation.
  - intros P. apply (Sorted_unique Z.le); auto using sorted_Sorted.
    by rewrite !sorted_Permutation.
Qed.

Lemma sorted_idemp l : sorted (sorted l) = sorted l.
Proof. apply sorted_eq_iff, sorted_Permutation. Qed.

Lemma all_in_spec xs ys : all_in xs ys = true ↔ ∀ x, x ∈ xs → x ∈ ys.
Proof.
  unfold all_in. rewrite forallb_forall. split.
  - intros H x Hx. apply list_elem_of_In, H in Hx. by apply bool_decide_eq_true in Hx.
  - intros H x Hx. apply bool_decide_eq_true, H, list_elem_of_In, Hx.
Qed.

End sorted_facts.

(** Two duplicate-free lists of the same length hold the same numbers
    exactly when one is a rearrangement of the other. *)
Lemma NoDup_same_elements_Permutation (l1 l2 : list Z) :
  NoDup l1 → NoDup l2 → (∀ x, x ∈ l1 ↔ x ∈ l2) → l1 ≡ₚ l2.
Proof. intros N1 N2 H. by apply NoDup_Permutation. Qed.

(** ** Equality of results *)

Lemma LotoResult_eq_total a b : returns (LotoResult_eq a (PyLoto b)).
Proof. unfold returns, LotoResult_eq. repeat case_decide; eauto. Qed.

Lemma LotoResult_eq_sym a b :
  LotoResult_eq a (PyLoto b) = LotoResult_eq b (PyLoto a).
Proof.
  unfold LotoResult_eq; simpl.
  repeat case_decide; try lia; try reflexivity.
  all: f_equal; apply bool_decide_ext; split; intros E; symmetry; exact E.
Qed.

Lemma LotoResult_eq_refl a : LotoResult_eq a (PyLoto a) = Ok true.
Proof.
  unfold LotoResult_eq. rewrite decide_True by done.
  by rewrite bool_decide_eq_true_2.
Qed.

(** Equal lengths: [==] is equality of the sorted grids, i.e. the grids
    are rearrangements of one another. *)
Lemma LotoResult_eq_same_length a b :
  length (grid a) = length (grid b) →
  LotoResult_eq a (PyLoto b) = Ok true ↔ grid a ≡ₚ grid b.
Proof.
  intros L. unfold LotoResult_eq. rewrite decide_True by done.
  rewrite <- sorted_eq_iff. split.
  - intros [= E]. by apply bool_decide_eq_true in E.
  - intros E. by rewrite bool_decide_eq_true_2.
Qed.

Lemma LotoResult_eq_shorter a b :
  (length (grid a) < length (grid b))%nat →
  LotoResult_eq a (PyLoto b) = Ok true ↔ ∀ x, x ∈ grid a → x ∈ grid b.
Proof.
  intros L. unfold LotoResult_eq.
  rewrite decide_False by lia. rewrite decide_True by done.
  rewrite <- all_in_spec. split; [by intros [= ->] | by intros ->].
Qed.

Lemma LotoResult_eq_longer a b :
  (length (grid b) < length (grid a))%nat →
  LotoResult_eq a (PyLoto b) = Ok true ↔ ∀ x, x ∈ grid b → x ∈ grid a.
Proof.
  intros L. rewrite LotoResult_eq_sym. by apply LotoResult_eq_shorter.
Qed.

Lemma LotoResult_eq_grid_only a b c1 d1 c2 d2 :
  LotoResult_eq (mkLotoResult (grid a) c1 d1) (PyLoto (mkLotoResult (grid b) c2 d2))
  = LotoResult_eq a (PyLoto b).
Proof. reflexivity. Qed.

(** C1, as the claim states it, fails: [dup_a] and [dup_b] have grids of
    equal length and the same set of main numbers, yet they are not
    equal. *)
Lemma C1_sets_equal_not_eq :
  length (grid dup_a) = length (grid dup_b) ∧
  (list_to_set (grid dup_a) : gset Z) = list_to_set (grid dup_b) ∧
  LotoResult_eq dup_a (PyLoto dup_b) = Ok false.
Proof.
  split; [reflexivity|]. split; [|reflexivity].
  apply set_eq. intros x. rewrite !elem_of_list_to_set. simpl.
  rewrite !elem_of_cons, !elem_of_nil. tauto.
Qed.

(** C1 (amended). For two results [a] and [b], [a == b] always returns a
    boolean. With grids of equal length it is true iff the grids hold the
    same numbers with the same multiplicities (for duplicate-free grids:
    iff the sets of main numbers are equal). With grids of different
    lengths it is true iff every main number of the shorter grid occurs in
    the longer grid. The bonus numbers and the date never influence it. *)
Theorem C1_eq_characterised (a b : LotoResult) :
  returns (LotoResult_eq a (PyLoto b)) ∧
  (length (grid a) = length (grid b) →
     (LotoResult_eq a (PyLoto b) = Ok true ↔ grid a ≡ₚ grid b) ∧
     (NoDup (grid a) → NoDup (grid b) →
        LotoResult_eq a (PyLoto b) = Ok true ↔
        (list_to_set (grid a) : gset Z) = list_to_set (grid b))) ∧
  ((length (grid a) < length (grid b))%nat →
     LotoResult_eq a (PyLoto b) = Ok true ↔ ∀ x, x ∈ grid a → x ∈ grid b) ∧
  ((length (grid b) < length (grid a))%nat →
     LotoResult_eq a (PyLoto b) = Ok true ↔ ∀ x, x ∈ grid b → x ∈ grid a) ∧
  (∀ c1 d1 c2 d2,
     LotoResult_eq (mkLotoResult (grid a) c1 d1)
                   (PyLoto (mkLotoResult (grid b) c2 d2))
     = LotoResult_eq a (PyLoto b)).
Proof.
  split; [apply LotoResult_eq_total|].
  split; [|split; [apply LotoResult_eq_shorter|split;
                   [apply LotoResult_eq_longer|by intros]]].
  intros L. split; [by apply LotoResult_eq_same_length|].
  intros Na Nb. rewrite LotoResult_eq_same_length by done. split.
  - intros P. apply set_eq. intros x. rewrite !elem_of_list_to_set. by rewrite P.
  - intros E. apply NoDup_same_elements_Permutation; [done..|].
    intros x. rewrite <- !(elem_of_list_to_set (C:=gset Z)). by rewrite E.
Qed.

Lemma C1_eq_characterised_witness :
  length (grid (mkLotoResult [3; 1; 2] [7] None))
    = length (grid (mkLotoResult [1; 2; 3] [9] None)) ∧
  (LotoResult_eq (mkLotoResult [3; 1; 2] [7] None)
                 (PyLoto (mkLotoResult [1; 2; 3] [9] None)) = Ok true ↔
   [3; 1; 2] ≡ₚ [1; 2; 3]).
Proof.
  split; [reflexivity|].
  exact (proj1 (proj1 (proj2 (C1_eq_characterised
           (mkLotoResult [3; 1; 2] [7] None) (mkLotoResult [1; 2; 3] [9] None)))
         eq_refl)).
Defined.

(** C9, as the claim states it, fails: comparing a result with an integer
    raises. *)
Lemma C9_eq_int_raises :
  LotoResult_eq dup_a (PyInt 0) = Raise NotImplementedError ∧
  LotoResult_ne dup_a (PyInt 0) = Raise NotImplementedError ∧
  ¬ returns (LotoResult_eq dup_a (PyInt 0)) ∧
  ¬ returns (LotoResult_ne dup_a (PyInt 0)).
Proof.
  repeat split; try reflexivity; intros [v Hv]; discriminate Hv.
Qed.

(** C9 (amended). [r == x] and [r != x] are guarded by a run-time type
    check: for a value [x] that is not a result both raise
    [NotImplementedError]; between two results both return a boolean, the
    second being the negation of the first. *)
Theorem C9_eq_type_guard (r : LotoResult) (x : pyobj) :
  ((∀ o, x ≠ PyLoto o) →
     LotoResult_eq r x = Raise NotImplementedError ∧
     LotoResult_ne r x = Raise NotImplementedError) ∧
  (∀ o, x = PyLoto o →
     ∃ v, LotoResult_eq r x = Ok v ∧ LotoResult_ne r x = Ok (negb v)).
Proof.
  split.
  - intros H. destruct x as [o| | |]; [by destruct (H o)|done..].
  - intros o ->. destruct (LotoResult_eq_total r o) as [v Hv].
    exists v. split; [done|]. unfold LotoResult_ne. by rewrite Hv.
Qed.

Lemma C9_eq_type_guard_witness :
  (∀ o, PyStr "1-2-3-4-5+6" ≠ PyLoto o) ∧
  LotoResult_eq dup_a (PyStr "1-2-3-4-5+6") = Raise NotImplementedError ∧
  LotoResult_ne dup_a (PyStr "1-2-3-4-5+6") = Raise NotImplementedError.
Proof.
  split; [discriminate|].
  apply (proj1 (C9_eq_type_guard dup_a (PyStr "1-2-3-4-5+6"))). discriminate.
Defined.

(** ** Text conversions *)

Section text_facts.

Lemma digit_char_spec d :
  0 ≤ d < 10 → is_digit (digit_char d) = true ∧ digit_val (digit_char d) = d.
Proof.
  intros H.
  assert (d = 0 ∨ d = 1 ∨ d = 2 ∨ d = 3 ∨ d = 4 ∨ d = 5 ∨ d = 6 ∨ d = 7
          ∨ d = 8 ∨ d = 9) as Hd by lia.
  repeat (destruct Hd as [-> | Hd]; [by split|]). by subst d.
Qed.

Lemma is_digit_range c :
  is_digit c = true → 48 ≤ Z.of_nat (nat_of_ascii c) ≤ 57.
Proof. unfold is_digit. cbv zeta. intros H%andb_prop. lia. Qed.

Lemma is_digit_not_space c : is_digit c = true → is_space c = false.
Proof.
  intros H%is_digit_range. unfold is_space. cbv zeta.
  apply orb_false_intro; [apply andb_false_iff; lia|apply Z.eqb_neq; lia].
Qed.

Lemma is_digit_neq c c' :
  is_digit c = true → is_digit c' = false → Ascii.eqb c c' = false.
Proof.
  intros H H'. destruct (Ascii.eqb_spec c c') as [->|]; [congruence|done].
Qed.

Lemma digits_of_all_digits fuel n acc :
  0 ≤ n → all_chars is_digit acc = true →
  all_chars is_digit (digits_of fuel n acc) = true.
Proof.
  revert n acc. induction fuel as [|f IH]; intros n acc Hn Hacc; simpl.
  - rewrite Hacc, andb_true_r. apply digit_char_spec, Z.mod_pos_bound. lia.
  - assert (all_chars is_digit (String (digit_char (n mod 10)) acc) = true) as H'.
    { simpl. rewrite Hacc, andb_true_r.
      apply digit_char_spec, Z.mod_pos_bound. lia. }
    destruct (n <? 10); [exact H'|].
    apply IH; [|exact H']. apply Z.div_pos; lia.
Qed.

Lemma int_digits_digits_of fuel n acc prev :
  0 ≤ n < 10 ^ (Z.of_nat fuel + 1) →
  int_digits 0 prev (digits_of fuel n acc) = int_digits n true acc.
Proof.
  revert n acc prev. induction fuel as [|f IH]; intros n acc prev Hn.
  - simpl in *. destruct (digit_char_spec (n mod 10)) as [-> ->].
    { apply Z.mod_pos_bound. lia. }
    f_equal. rewrite Z.mod_small; lia.
  - cbn [digits_of]. destruct (Z.ltb_spec n 10) as [Hlt|Hge].
    + simpl. destruct (digit_char_spec (n mod 10)) as [-> ->].
      { apply Z.mod_pos_bound. lia. }
      f_equal. rewrite Z.mod_small; lia.
    + rewrite IH.
      * simpl. destruct (digit_char_spec (n mod 10)) as [-> ->].
        { apply Z.mod_pos_bound. lia. }
        f_equal. rewrite (Z.div_mod n 10) at 3; lia.
      * split; [apply Z.div_pos; lia|].
        apply Z.div_lt_upper_bound; [lia|].
        replace (Z.of_nat (S f) + 1) with (Z.succ (Z.of_nat f + 1)) in Hn by lia.
        rewrite Z.pow_succ_r in Hn; lia.
Qed.

Lemma log2_fuel_enough n :
  0 ≤ n → n < 10 ^ (Z.of_nat (Z.to_nat (Z.log2 n)) + 1).
Proof.
  intros Hn. rewrite Z2Nat.id by apply Z.log2_nonneg.
  destruct (decide (n = 0)) as [->|Hne].
  - reflexivity.
  - pose proof (Z.log2_spec n ltac:(lia)) as [_ Hlt].
    eapply Z.lt_le_trans; [exact Hlt|].
    replace (Z.succ (Z.log2 n)) with (Z.log2 n + 1) by lia.
    apply Z.pow_le_mono_l. pose proof (Z.log2_nonneg n). lia.
Qed.

Lemma all_chars_impl (P Q : ascii → bool) s :
  (∀ c, P c = true → Q c = true) → all_chars P s = true → all_chars Q s = true.
Proof.
  intros HPQ. induction s as [|c s IH]; simpl; [done|].
  intros [Hc Hs]%andb_prop. by rewrite (HPQ c Hc), IH.
Qed.

Lemma has_char_false_iff c s :
  has_char c s = false ↔ all_chars (λ c', negb (Ascii.eqb c' c)) s = true.
Proof.
  induction s as [|c' s IH]; simpl; [done|].
  rewrite orb_false_iff, andb_true_iff, IH, negb_true_iff. done.
Qed.

Lemma lstrip_id c s : is_space c = false → lstrip (String c s) = String c s.
Proof. intros H. simpl. by rewrite H. Qed.

Lemma rstrip_id s :
  all_chars (λ c, negb (is_space c)) s = true → rstrip s = s.
Proof.
  induction s as [|c s IH]; simpl; [done|].
  intros [Hc Hs]%andb_prop. rewrite (IH Hs).
  apply negb_true_iff in Hc. rewrite Hc. by destruct s.
Qed.

Lemma digits_of_cons fuel n acc :
  ∃ c s, digits_of fuel n acc = String c s.
Proof.
  revert n acc. induction fuel as [|f IH]; intros n acc; simpl; [eauto|].
  destruct (n <? 10); eauto.
Qed.

(** The text of a natural number is a non-empty run of digits that reads
    back as that number. *)
Lemma py_str_nonneg n :
  0 ≤ n →
  all_chars is_digit (py_str n) = true ∧
  (∃ c s, py_str n = String c s) ∧
  (∀ prev, int_digits 0 prev (py_str n) = Some n).
Proof.
  intros Hn. unfold py_str.
  destruct (Z.ltb_spec n 0) as [?|_]; [lia|].
  split; [by apply digits_of_all_digits|].
  split; [apply digits_of_cons|].
  intros prev. rewrite int_digits_digits_of; [done|].
  split; [done|by apply log2_fuel_enough].
Qed.

Lemma py_int_digits s n :
  all_chars is_digit s = true → int_digits 0 false s = Some n →
  py_int s = Ok n.
Proof.
  intros Hd Hv. unfold py_int.
  assert (rstrip (lstrip s) = s) as ->.
  { destruct s as [|c s]; [done|].
    pose proof Hd as [Hc _]%andb_prop.
    rewrite lstrip_id by by apply is_digit_not_space.
    apply rstrip_id. eapply all_chars_impl; [|exact Hd].
    intros c' H'. by rewrite is_digit_not_space. }
  destruct s as [|c s]; [done|].
  pose proof Hd as [Hc _]%andb_prop.
  rewrite !(is_digit_neq c) by done.
  rewrite Hv. f_equal. lia.
Qed.

(** [int(str(n)) == n] for every integer. *)
Lemma py_int_py_str n : py_int (py_str n) = Ok n.
Proof.
  destruct (Z.ltb_spec n 0) as [Hneg|Hpos].
  - destruct (py_str_nonneg (- n) ltac:(lia)) as (Hd & _ & Hv).
    assert (py_str n = String "-" (py_str (- n))) as ->.
    { unfold py_str. destruct (Z.ltb_spec n 0); [|lia].
      destruct (Z.ltb_spec (- n) 0); [lia|done]. }
    unfold py_int.
    assert (rstrip (lstrip (String "-" (py_str (- n))))
            = String "-" (py_str (- n))) as ->.
    { rewrite lstrip_id by done. apply rstrip_id. simpl.
      eapply all_chars_impl; [|exact Hd].
      intros c' H'. by rewrite is_digit_not_space. }
    simpl. rewrite Hv. f_equal. lia.
  - destruct (py_str_nonneg n Hpos) as (Hd & _ & Hv).
    by apply py_int_digits.
Qed.

Lemma py_str_no_plus n : has_char "+" (py_str n) = false.
Proof.
  apply has_char_false_iff.
  destruct (Z.ltb_spec n 0) as [Hneg|Hpos].
  - destruct (py_str_nonneg (- n) ltac:(lia)) as (Hd & _ & _).
    unfold py_str in *. destruct (Z.ltb_spec n 0); [|lia].
    destruct (Z.ltb_spec (- n) 0); [lia|]. simpl.
    eapply all_chars_impl; [|exact Hd].
    intros c' H'. by rewrite is_digit_neq.
  - destruct (py_str_nonneg n Hpos) as (Hd & _ & _).
    eapply all_chars_impl; [|exact Hd].
    intros c' H'. by rewrite is_digit_neq.
Qed.

Lemma py_str_no_minus n : 0 ≤ n → has_char "-" (py_str n) = false.
Proof.
  intros Hpos. apply has_char_false_iff.
  destruct (py_str_nonneg n Hpos) as (Hd & _ & _).
  eapply all_chars_impl; [|exact Hd].
  intros c' H'. by rewrite is_digit_neq.
Qed.

End text_facts.

(** ** [split], [join] and [partition] *)

Section split_join.

Lemma string_app_cons c (s t : string) : String c s +:+ t = String c (s +:+ t).
Proof. reflexivity. Qed.

Lemma string_app_nil_r (s : string) : s +:+ "" = s.
Proof.
  induction s as [|c s IH]; [done|]. by rewrite string_app_cons, IH.
Qed.

Lemma has_char_app c s t :
  has_char c (s +:+ t) = has_char c s || has_char c t.
Proof.
  induction s as [|c' s IH]; [done|].
  rewrite string_app_cons. simpl. by rewrite IH, orb_assoc.
Qed.

Lemma split_cons_form sep s : ∃ w ws, split sep s = w :: ws.
Proof.
  induction s as [|c s (w & ws & IH)]; simpl; [eauto|].
  destruct (Ascii.eqb c sep); [eauto|]. rewrite IH. eauto.
Qed.

Lemma split_no_sep sep s : has_char sep s = false → split sep s = [s].
Proof.
  induction s as [|c s IH]; simpl; [done|].
  intros [Hc Hs]%orb_false_elim. by rewrite Hc, (IH Hs).
Qed.

Lemma split_app sep w s :
  has_char sep w = false →
  split sep (w +:+ String sep s) = w :: split sep s.
Proof.
  induction w as [|c w IH].
  - intros _. change ("" +:+ String sep s) with (String sep s).
    simpl. by rewrite Ascii.eqb_refl.
  - rewrite string_app_cons. simpl.
    intros [Hc Hw]%orb_false_elim. by rewrite Hc, (IH Hw).
Qed.

Lemma split_join sep l :
  l ≠ [] → Forall (λ w, has_char sep w = false) l →
  split sep (join (String sep "") l) = l.
Proof.
  intros Hne Hl. induction Hl as [|w l Hw Hl IH]; [done|].
  destruct l as [|w' l]; [by apply split_no_sep|].
  change (join (String sep "") (w :: w' :: l))
    with (w +:+ String sep (join (String sep "") (w' :: l))).
  rewrite split_app by done. by rewrite IH.
Qed.

Lemma has_char_join c sep l :
  has_char c sep = false → Forall (λ w, has_char c w = false) l →
  has_char c (join sep l) = false.
Proof.
  intros Hsep Hl. induction Hl as [|w l Hw Hl IH]; [done|].
  destruct l as [|w' l]; [done|].
  change (join sep (w :: w' :: l)) with (w +:+ sep +:+ join sep (w' :: l)).
  by rewrite !has_char_app, Hw, Hsep, IH.
Qed.

Lemma partition_app sep w s :
  has_char sep w = false →
  partition sep (w +:+ String sep s) = (w, String sep "", s).
Proof.
  induction w as [|c w IH].
  - intros _. change ("" +:+ String sep s) with (String sep s).
    simpl. by rewrite Ascii.eqb_refl.
  - rewrite string_app_cons. simpl.
    intros [Hc Hw]%orb_false_elim. by rewrite Hc, (IH Hw).
Qed.

Lemma traverse_py_int_map l : traverse py_int (map py_str l) = Ok l.
Proof.
  induction l as [|x l IH]; simpl; [done|]. by rewrite py_int_py_str, IH.
Qed.

Lemma rstrip_cons c s :
  is_space c = false → ∃ t, rstrip (String c s) = String c t.
Proof. intros H. simpl. rewrite H. destruct (rstrip s); eauto. Qed.

(** A token that starts with a letter is not an integer literal. *)
Lemma py_int_label w : py_int ("tirage=" +:+ w) = Raise ValueError.
Proof.
  unfold py_int. change ("tirage=" +:+ w) with (String "t" ("irage=" +:+ w)).
  rewrite lstrip_id by done.
  destruct (rstrip_cons "t" ("irage=" +:+ w)) as [t ->]; done.
Qed.

End split_join.

(** ** Canonical text and parsing *)

(** The text of every result starts with the label [tirage=], which the
    parser does not accept. *)
Lemma from_string_str_raises r :
  from_string (LotoResult_str r) = Raise ValueError.
Proof.
  unfold from_string, LotoResult_str.
  set (rest := join "-" _ +:+ _).
  change ("tirage=" +:+ rest) with
    (String "t" (String "i" (String "r" (String "a" (String "g"
      (String "e" (String "=" rest))))))).
  cbn [partition Ascii.eqb Bool.eqb].
  destruct (partition "+" rest) as [[h m] t].
  cbn [split Ascii.eqb Bool.eqb].
  destruct (split_cons_form "-" h) as (w & ws & ->).
  cbn [traverse].
  change (String "t" (String "i" (String "r" (String "a" (String "g"
      (String "e" (String "=" w))))))) with ("tirage=" +:+ w).
  by rewrite py_int_label.
Qed.

(** C3, as the claim states it, fails: the canonical text of the draw
    1-2-3-4-5+6 is not accepted by the parser. *)
Lemma C3_str_not_parsed :
  date draw_12345_6 = None ∧
  LotoResult_str draw_12345_6 = "tirage=1-2-3-4-5+6" ∧
  from_string (LotoResult_str draw_12345_6) = Raise ValueError.
Proof. repeat split. Qed.

(** C3 (amended). For every result [r] without a date, [str(r)] is the
    label [tirage=] followed by the sorted main numbers joined by hyphens,
    a plus sign and the sorted bonus numbers joined by plus signs. The
    parser rejects [str(r)] itself; applied to the text after the label it
    succeeds and yields a result equal to [r], provided [r] has at least
    one main number and one bonus number and no negative main number. *)
Theorem C3_roundtrip_after_label (r : LotoResult) :
  date r = None →
  grid r ≠ [] → chance r ≠ [] → (∀ x, x ∈ grid r → 0 ≤ x) →
  ∃ body r',
    LotoResult_str r = "tirage=" +:+ body ∧
    body = join "-" (map py_str (sorted (grid r))) +:+ "+"
           +:+ join "+" (map py_str (sorted (chance r))) ∧
    from_string (LotoResult_str r) = Raise ValueError ∧
    from_string body = Ok r' ∧
    LotoResult_eq r' (PyLoto r) = Ok true.
Proof.
  intros Hdate Hg Hc Hpos.
  exists (join "-" (map py_str (sorted (grid r))) +:+ "+"
          +:+ join "+" (map py_str (sorted (chance r)))),
         (mkLotoResult (sorted (grid r)) (sorted (chance r)) None).
  split; [|split; [reflexivity|split; [apply from_string_str_raises|split]]].
  - unfold LotoResult_str. rewrite Hdate. cbv zeta iota beta.
    by rewrite string_app_nil_r.
  - unfold from_string.
    change ("+" +:+ ?s) with (String "+" s).
    rewrite partition_app.
    2:{ apply has_char_join; [done|]. apply Forall_map, Forall_forall.
        intros x _. apply py_str_no_plus. }
    rewrite (split_join "-"), (split_join "+"), !traverse_py_int_map; [done|..].
    + intros E%(f_equal length). rewrite length_map, sorted_Permutation in E.
      by destruct (chance r).
    + apply Forall_map, Forall_forall. intros x _. apply py_str_no_plus.
    + intros E%(f_equal length). rewrite length_map, sorted_Permutation in E.
      by destruct (grid r).
    + apply Forall_map, Forall_forall. intros x Hx. apply py_str_no_minus.
      apply Hpos. by rewrite <- (sorted_Permutation (grid r)).
  - apply LotoResult_eq_same_length; simpl.
    + by rewrite sorted_Permutation.
    + apply sorted_Permutation.
Qed.

Lemma C3_roundtrip_after_label_witness :
  ∃ body r',
    LotoResult_str draw_12345_6 = "tirage=" +:+ body ∧
    body = join "-" (map py_str (sorted (grid draw_12345_6))) +:+ "+"
           +:+ join "+" (map py_str (sorted (chance draw_12345_6))) ∧
    from_string (LotoResult_str draw_12345_6) = Raise ValueError ∧
    from_string body = Ok r' ∧
    LotoResult_eq r' (PyLoto draw_12345_6) = Ok true.
Proof.
  apply (C3_roundtrip_after_label draw_12345_6); [reflexivity|done|done|].
  intros x Hx. simpl in Hx. rewrite !elem_of_cons, elem_of_nil in Hx. lia.
Defined.

(** ** Header classification *)

Section header_facts.

Lemma forallb_elem_of (keys header : list string) :
  forallb (λ k, bool_decide (k ∈ header)) keys = true ↔
  ∀ k, k ∈ keys → k ∈ header.
Proof.
  rewrite forallb_forall. split.
  - intros H k Hk. apply list_elem_of_In, H in Hk.
    by apply bool_decide_eq_true in Hk.
  - intros H k Hk. apply bool_decide_eq_true, H, list_elem_of_In, Hk.
Qed.

Lemma filter_length_0 {A} (f : A → bool) (l : list A) :
  length (List.filter f l) = 0%nat ↔ ∀ x, x ∈ l → f x = false.
Proof.
  induction l as [|a l IH]; simpl.
  - split; [|done]. intros _ x Hx. by apply elem_of_nil in Hx.
  - destruct (f a) eqn:Fa; simpl.
    + split; [done|]. intros H. specialize (H a (list_elem_of_here _ _)).
      congruence.
    + rewrite IH. split.
      * intros H x [->|Hx]%elem_of_cons; auto.
      * intros H x Hx. apply H. by apply elem_of_cons; right.
Qed.

(** What [is_one] computes on a header. *)
Lemma is_one_header_spec (cls : LotoFormat) (header : list string) :
  is_one cls (inr header) = true ↔
  (∀ k, k ∈ boule_keys cls → k ∈ header) ∧
  (∀ k, k ∈ chance_keys cls → k ∈ header) ∧
  (∀ h, h ∈ header →
     startswith h (BOULE_PREFIX cls) = true ∨
     startswith h (CHANCE_PREFIX cls) = true →
     h ∈ boule_keys cls ∨ h ∈ chance_keys cls ∨ whitelist cls h = true).
Proof.
  unfold is_one.
  rewrite !andb_true_iff, !forallb_elem_of, bool_decide_eq_true, filter_length_0.
  split.
  - intros [[Hb Hc] Hf]. split; [done|]. split; [done|].
    intros h Hh Hp. specialize (Hf h Hh).
    apply orb_true_iff in Hp. rewrite Hp in Hf. simpl in Hf.
    destruct (whitelist cls h); [auto|].
    rewrite andb_true_r, negb_false_iff, bool_decide_eq_true in Hf.
    apply elem_of_app in Hf. tauto.
  - intros (Hb & Hc & Hf). split; [done|].
    intros h Hh. specialize (Hf h Hh).
    destruct (startswith h (BOULE_PREFIX cls) || startswith h (CHANCE_PREFIX cls))
      eqn:Hp; [|done].
    apply orb_true_iff in Hp. simpl.
    destruct (Hf Hp) as [Hk|[Hk| ->]]; [| |by rewrite andb_false_r].
    + rewrite (bool_decide_eq_true_2 (h ∈ _)); [done|].
      apply elem_of_app; auto.
    + rewrite (bool_decide_eq_true_2 (h ∈ _)); [done|].
      apply elem_of_app; auto.
Qed.

Lemma boule_keys_classes :
  boule_keys Loto5Boules = ["boule_1"; "boule_2"; "boule_3"; "boule_4"; "boule_5"] ∧
  boule_keys Loto6Boules
    = ["boule_1"; "boule_2"; "boule_3"; "boule_4"; "boule_5"; "boule_6"] ∧
  boule_keys EuroMillion = ["boule_1"; "boule_2"; "boule_3"; "boule_4"; "boule_5"].
Proof. repeat split. Qed.

Lemma chance_keys_classes :
  chance_keys Loto5Boules = ["numero_chance"] ∧
  chance_keys Loto6Boules = ["boule_complementaire"] ∧
  chance_keys EuroMillion = ["etoile_1"; "etoile_2"].
Proof. repeat split. Qed.

Lemma exactly_5_boules_is_one (header : list string) (c : loto_class) :
  exactly_5_boules header →
  is_one c (inr header) = true ↔ c = Loto5Boules.
Proof.
  intros Hex. rewrite is_one_header_spec.
  destruct boule_keys_classes as (B5 & B6 & BE).
  destruct chance_keys_classes as (C5 & C6 & CE).
  split.
  - intros (Hb & Hc & _). destruct c; [done|exfalso..].
    + assert ("boule_6" ∈ header_5_boules) as H.
      { apply Hex, Hb. rewrite B6. by repeat constructor. }
      unfold header_5_boules in H. rewrite !elem_of_cons, elem_of_nil in H.
      repeat destruct H as [H|H]; discriminate || done.
    + assert ("etoile_1" ∈ header_5_boules) as H.
      { apply Hex, Hc. rewrite CE. by repeat constructor. }
      unfold header_5_boules in H. rewrite !elem_of_cons, elem_of_nil in H.
      repeat destruct H as [H|H]; discriminate || done.
  - intros ->. rewrite B5, C5. split; [|split].
    + intros k Hk. apply Hex. unfold header_5_boules.
      rewrite !elem_of_cons, elem_of_nil in *. tauto.
    + intros k Hk. apply Hex. unfold header_5_boules.
      rewrite !elem_of_cons, elem_of_nil in *. tauto.
    + intros h Hh%Hex Hp.
      unfold header_5_boules in Hh. rewrite !elem_of_cons, elem_of_nil in Hh.
      destruct Hh as [->|[->|[->|[->|[->|[->|[->|[]]]]]]]];
        first [ by (left; repeat constructor)
              | by (right; left; repeat constructor)
              | by (destruct Hp as [Hp|Hp]; vm_compute in Hp) ].
Qed.

End header_facts.

(** C2. For every class and every header, [is_one] holds iff every key of
    [boule_keys()] and of [chance_keys()] is in the header and every header
    entry that starts with the main or the bonus prefix is one of those
    keys or matches the whitelist pattern. A header that holds exactly
    [boule_1] .. [boule_5], [numero_chance] and [date_de_tirage] is claimed
    by the five-ball class, by no other class, and the registry returns
    the five-ball class for it. *)
Theorem C2_is_one_header (cls : LotoFormat) (header : list string) :
  (is_one cls (inr header) = true ↔
     (∀ k, k ∈ boule_keys cls → k ∈ header) ∧
     (∀ k, k ∈ chance_keys cls → k ∈ header) ∧
     (∀ h, h ∈ header →
        startswith h (BOULE_PREFIX cls) = true ∨
        startswith h (CHANCE_PREFIX cls) = true →
        h ∈ boule_keys cls ∨ h ∈ chance_keys cls ∨ whitelist cls h = true)) ∧
  (∀ header5 : list string,
     (∀ h, h ∈ header5 ↔ h ∈ header_5_boules) →
     (∀ c : loto_class, is_one c (inr header5) = true ↔ c = Loto5Boules) ∧
     classify header5 = Some Loto5Boules).
Proof.
  split; [apply is_one_header_spec|].
  intros header5 Hex.
  assert (∀ c : loto_class, is_one c (inr header5) = true ↔ c = Loto5Boules) as H.
  { intros c. by apply exactly_5_boules_is_one. }
  split; [exact H|].
  unfold classify.
  change (LOTO_FORMATS.*2) with [Loto5Boules; Loto6Boules; EuroMillion].
  cbn [List.find]. by rewrite (proj2 (H Loto5Boules) eq_refl).
Qed.

Lemma C2_is_one_header_witness :
  (∀ h, h ∈ header_5_boules ↔ h ∈ header_5_boules) ∧
  (∀ c : loto_class, is_one c (inr header_5_boules) = true ↔ c = Loto5Boules) ∧
  classify header_5_boules = Some Loto5Boules.
Proof.
  split; [done|].
  apply (proj2 (C2_is_one_header Loto5Boules header_5_boules) header_5_boules).
  done.
Defined.

(** ** Row extraction *)

Section effects_facts.

Lemma bind_lift_ok {A B} (a : A) (k : A → Py B) : py_lift (Ok a) ≫= k = k a.
Proof. unfold mbind, Py_mbind, py_bind, py_lift. by destruct (k a). Qed.

Lemma bind_lift_raise {A B} e (k : A → Py B) :
  py_lift (Raise e) ≫= k = py_raise e.
Proof. reflexivity. Qed.

Lemma bind_ok {A B} (a : A) out (k : A → Py B) :
  (Ok a, out) ≫= k = ((k a).1, (out ++ (k a).2)%list).
Proof. unfold mbind, Py_mbind, py_bind. by destruct (k a). Qed.

Lemma bind_raise {A B} e out (k : A → Py B) :
  (Raise e, out) ≫= k = (Raise e, out).
Proof. reflexivity. Qed.

Lemma bind_emit {B} ev (m : Py B) :
  (py_emit ev;; m) = (m.1, ev :: m.2).
Proof. unfold py_emit. by rewrite bind_ok. Qed.

End effects_facts.

(** Case analysis on an index of the five second-draw columns. *)
Ltac cases_1_to_5 i Hi :=
  let Hcases := fresh "Hcases" in
  assert (i = 1 ∨ i = 2 ∨ i = 3 ∨ i = 4 ∨ i = 5) as Hcases by lia;
  clear Hi;
  destruct Hcases as [-> | [-> | [-> | [-> | ->]]]].

Section extraction_facts.

Variable strptime : string → string → result datetime.

Lemma try_formats_all_fail grid chance d fmts :
  (∀ fmt, fmt ∈ fmts → ¬ returns (strptime d fmt)) →
  try_formats strptime grid chance d fmts = (Ok [], map (WarnDate d) fmts).
Proof.
  induction fmts as [|fmt fmts IH]; intros H; [done|].
  cbn [try_formats].
  destruct (strptime d fmt) as [dt|e] eqn:E.
  - destruct (H fmt); [apply list_elem_of_here|]. rewrite E. by exists dt.
  - rewrite bind_emit, IH; [done|].
    intros f Hf. apply H. by apply list_elem_of_further.
Qed.

(** The shared loop returns no result or one dated result built from the
    row's numbers; it never raises. *)
Lemma try_formats_inv grid chance d fmts r out :
  try_formats strptime grid chance d fmts = (r, out) →
  r = Ok [] ∨ ∃ dt, r = Ok [mkLotoResult grid chance (Some dt)].
Proof.
  revert r out. induction fmts as [|fmt fmts IH]; intros r out.
  - intros [= <- <-]. by left.
  - cbn [try_formats]. destruct (strptime d fmt) as [dt|e].
    + intros [= <- <-]. right. by exists dt.
    + rewrite bind_emit.
      destruct (try_formats strptime grid chance d fmts) as [r' out'] eqn:E.
      intros [= <- <-]. by apply (IH r' out').
Qed.

Lemma LotoFormat_extract_line_numbers cls line grid chance d :
  traverse (int_at line) (boule_keys cls) = Ok grid →
  traverse (int_at line) (chance_keys cls) = Ok chance →
  line !! DATE_KEY cls = Some (Some d) →
  LotoFormat_extract_line strptime cls line
  = try_formats strptime grid chance d (find_date_format d).
Proof.
  intros Hg Hc Hd. unfold LotoFormat_extract_line, getitem.
  by rewrite Hg, bind_lift_ok, Hc, bind_lift_ok, Hd, bind_lift_ok.
Qed.

Lemma LotoFormat_extract_line_inv cls line res out :
  LotoFormat_extract_line strptime cls line = (Ok res, out) →
  ∃ grid chance d,
    traverse (int_at line) (boule_keys cls) = Ok grid ∧
    traverse (int_at line) (chance_keys cls) = Ok chance ∧
    line !! DATE_KEY cls = Some (Some d) ∧
    try_formats strptime grid chance d (find_date_format d) = (Ok res, out).
Proof.
  unfold LotoFormat_extract_line, getitem.
  destruct (traverse (int_at line) (boule_keys cls)) as [grid|e]; [|done].
  rewrite bind_lift_ok.
  destruct (traverse (int_at line) (chance_keys cls)) as [chance|e]; [|done].
  rewrite bind_lift_ok.
  destruct (line !! DATE_KEY cls) as [[d|]|]; [|done..].
  rewrite bind_lift_ok. intros H. by exists grid, chance, d.
Qed.

(** The second-draw loop on a row whose second-draw cells are integers. *)
Lemma second_seq_returns line idxs :
  (∀ i v, i ∈ idxs → line !! second_format i = Some v → returns (int_cell v)) →
  ∃ seq, second_seq line idxs = Ok seq ∧
         (∀ n, n ∈ seq ↔
               ∃ i v, i ∈ idxs ∧ line !! second_format i = Some v ∧
                      int_cell v = Ok n).
Proof.
  induction idxs as [|i idxs IH]; intros H.
  - exists []. split; [done|]. intros n. split.
    + by intros ?%elem_of_nil.
    + by intros (i & v & ?%elem_of_nil & _).
  - destruct IH as (seq & Hseq & Hin).
    { intros j v Hj. apply H. by apply list_elem_of_further. }
    cbn [second_seq]. destruct (line !! second_format i) as [v|] eqn:E.
    + destruct (H i v) as [n Hn]; [apply list_elem_of_here|done|].
      exists (n :: seq). rewrite Hn, Hseq. split; [done|].
      intros m. rewrite elem_of_cons, Hin. split.
      * intros [->|(j & w & Hj & Hw & Hm)].
        -- exists i, v. split; [apply list_elem_of_here|done].
        -- exists j, w. split; [by apply list_elem_of_further|done].
      * intros (j & w & [->|Hj]%elem_of_cons & Hw & Hm).
        -- left. congruence.
        -- right. by exists j, w.
    + exists seq. split; [done|].
      intros m. rewrite Hin. split.
      * intros (j & w & Hj & Hw & Hm).
        exists j, w. split; [by apply list_elem_of_further|done].
      * intros (j & w & [->|Hj]%elem_of_cons & Hw & Hm); [congruence|].
        by exists j, w.
Qed.

Lemma second_seq_absent line idxs :
  (∀ i, i ∈ idxs → line !! second_format i = None) →
  second_seq line idxs = Ok [].
Proof.
  induction idxs as [|i idxs IH]; intros H; [done|].
  cbn [second_seq]. rewrite (H i) by apply list_elem_of_here.
  apply IH. intros j Hj. apply H. by apply list_elem_of_further.
Qed.

(** When every listed column is present with an integer cell, the loop
    returns those integers in the order of the columns. *)
Lemma second_seq_all_present line idxs ns :
  Forall2 (λ i n, ∃ v, line !! second_format i = Some v ∧ int_cell v = Ok n)
          idxs ns →
  second_seq line idxs = Ok ns.
Proof.
  induction 1 as [|i n idxs ns (v & Hv & Hn) _ IH]; [done|].
  cbn [second_seq]. by rewrite Hv, Hn, IH.
Qed.

Lemma traverse_raises {A B} (f : A → result B) l :
  (∃ x, x ∈ l ∧ ¬ returns (f x)) → ∃ e, traverse f l = Raise e.
Proof.
  induction l as [|x l IH]; intros (y & Hy & Hf); [by apply elem_of_nil in Hy|].
  simpl. destruct (f x) as [v|e] eqn:E; [|by exists e].
  apply elem_of_cons in Hy as [->|Hy].
  - destruct Hf. rewrite E. by exists v.
  - destruct IH as [e ->]; [by exists y|]. by exists e.
Qed.

Lemma second_seq_raises line idxs :
  (∃ i v, i ∈ idxs ∧ line !! second_format i = Some v ∧ ¬ returns (int_cell v)) →
  ∃ e, second_seq line idxs = Raise e.
Proof.
  induction idxs as [|i idxs IH]; intros (j & v & Hj & Hv & Hbad);
    [by apply elem_of_nil in Hj|].
  cbn [second_seq]. apply elem_of_cons in Hj as [->|Hj].
  - rewrite Hv. destruct (int_cell v) as [n|e]; [|by exists e].
    destruct Hbad. by exists n.
  - destruct IH as [e He]; [by exists j, v|].
    destruct (line !! second_format i) as [w|]; [|by exists e].
    destruct (int_cell w) as [n|e']; [|by exists e']. cbn. rewrite He. by exists e.
Qed.

(** A required cell that is absent or is not an integer makes the shared
    extraction raise before anything is reported. *)
Lemma LotoFormat_extract_line_bad_number cls line :
  (∃ k, k ∈ (boule_keys cls ++ chance_keys cls)%list ∧ ¬ returns (int_at line k)) →
  ∃ e, LotoFormat_extract_line strptime cls line = (Raise e, []).
Proof.
  intros (k & Hk & Hbad). unfold LotoFormat_extract_line.
  destruct (traverse (int_at line) (boule_keys cls)) as [grid|e] eqn:Eg;
    [|by exists e].
  rewrite bind_lift_ok.
  apply elem_of_app in Hk as [Hk|Hk].
  - destruct (traverse_raises (int_at line) (boule_keys cls)) as [e He];
      [by exists k|congruence].
  - destruct (traverse_raises (int_at line) (chance_keys cls)) as [e ->];
      [by exists k|]. by exists e.
Qed.

Lemma elem_of_seqZ_1_5 i : i ∈ seqZ 1 (BOULES_NB Loto5Boules) ↔ 1 ≤ i ≤ 5.
Proof. rewrite elem_of_seqZ. simpl. lia. Qed.

End extraction_facts.

Section second_draw_facts.

Variable strptime : string → string → result datetime.

Lemma Loto5Boules_with_second line res out seq bonus :
  LotoFormat_extract_line strptime Loto5Boules line = (Ok res, out) →
  second_seq line (seqZ 1 (BOULES_NB Loto5Boules)) = Ok seq → seq ≠ [] →
  traverse (int_at line) (chance_keys Loto5Boules) = Ok bonus →
  extract_line strptime Loto5Boules line
  = (Ok (res ++ [mkLotoResult seq bonus None])%list, out).
Proof.
  intros Hres Hseq Hne Hb. cbn [extract_line]. unfold Loto5Boules_extract_line.
  rewrite Hres, bind_ok, Hseq, bind_lift_ok.
  destruct seq as [|n seq]; [done|].
  rewrite Hb, bind_lift_ok. simpl. by rewrite app_nil_r.
Qed.

Lemma Loto5Boules_without_second line :
  second_seq line (seqZ 1 (BOULES_NB Loto5Boules)) = Ok [] →
  extract_line strptime Loto5Boules line
  = LotoFormat_extract_line strptime Loto5Boules line.
Proof.
  intros Hseq. cbn [extract_line]. unfold Loto5Boules_extract_line.
  destruct (LotoFormat_extract_line strptime Loto5Boules line) as [[res|e] out];
    [|done].
  rewrite bind_ok, Hseq, bind_lift_ok. simpl. by rewrite app_nil_r.
Qed.

(** A row with at least one second-draw column, all of them integers:
    the loop collects a non-empty sequence. *)
Lemma second_seq_present line :
  (∃ i, 1 ≤ i ≤ 5 ∧ is_Some (line !! second_format i)) →
  (∀ i v, 1 ≤ i ≤ 5 → line !! second_format i = Some v → returns (int_cell v)) →
  ∃ seq,
    seq ≠ [] ∧
    second_seq line (seqZ 1 (BOULES_NB Loto5Boules)) = Ok seq ∧
    (∀ n, n ∈ seq ↔
          ∃ i v, 1 ≤ i ≤ 5 ∧ line !! second_format i = Some v ∧
                 int_cell v = Ok n).
Proof.
  intros (i & Hi & v & Hv) Hint.
  destruct (second_seq_returns line (seqZ 1 (BOULES_NB Loto5Boules)))
    as (seq & Hseq & Hin).
  { intros j w Hj%elem_of_seqZ_1_5. by apply Hint. }
  assert (∀ n, n ∈ seq ↔
               ∃ i v, 1 ≤ i ≤ 5 ∧ line !! second_format i = Some v ∧
                      int_cell v = Ok n) as Hin'.
  { intros n. rewrite Hin. split; intros (j & w & Hj & H); exists j, w;
      (split; [by apply elem_of_seqZ_1_5|done]). }
  exists seq. split; [|done].
  destruct (Hint i v Hi Hv) as [n Hn].
  assert (n ∈ seq) as Hn' by (apply Hin'; by exists i, v).
  intros ->. by apply elem_of_nil in Hn'.
Qed.

Lemma Loto5Boules_base_raises line e out :
  LotoFormat_extract_line strptime Loto5Boules line = (Raise e, out) →
  extract_line strptime Loto5Boules line = (Raise e, out).
Proof.
  intros H. cbn [extract_line]. unfold Loto5Boules_extract_line. by rewrite H.
Qed.

Lemma Loto5Boules_bad_second line res out :
  LotoFormat_extract_line strptime Loto5Boules line = (Ok res, out) →
  (∃ i v, 1 ≤ i ≤ 5 ∧ line !! second_format i = Some v ∧ ¬ returns (int_cell v)) →
  ∃ e, extract_line strptime Loto5Boules line = (Raise e, out).
Proof.
  intros Hres (i & v & Hi & Hv & Hbad).
  destruct (second_seq_raises line (seqZ 1 (BOULES_NB Loto5Boules))) as [e He].
  { exists i, v. split; [by apply elem_of_seqZ_1_5|done]. }
  exists e. cbn [extract_line]. unfold Loto5Boules_extract_line.
  rewrite Hres, bind_ok, He. simpl. by rewrite app_nil_r.
Qed.

(** C6 (amended). For a row that holds second-draw columns
    [boule_i_second_tirage], the five-ball [extract_line] raises when the
    shared extraction raises, and also when the shared extraction returns
    but a second-draw cell of the row is not an integer. Otherwise, the
    shared extraction returning [res] and every second-draw cell being an
    integer, it returns [res] followed by one extra result: its grid is the
    sequence of the second-draw numbers, its bonus numbers are those of the
    row (the same as in the primary result), and it has no date. *)
Theorem C6_second_draw_appended (line : row_dict) :
  (∃ i, 1 ≤ i ≤ 5 ∧ is_Some (line !! second_format i)) →
  (∀ e out,
     LotoFormat_extract_line strptime Loto5Boules line = (Raise e, out) →
     extract_line strptime Loto5Boules line = (Raise e, out)) ∧
  (∀ res out,
     LotoFormat_extract_line strptime Loto5Boules line = (Ok res, out) →
     ((∃ i v, 1 ≤ i ≤ 5 ∧ line !! second_format i = Some v ∧
              ¬ returns (int_cell v)) →
      ∃ e, extract_line strptime Loto5Boules line = (Raise e, out)) ∧
     ((∀ i v, 1 ≤ i ≤ 5 → line !! second_format i = Some v →
              returns (int_cell v)) →
      ∃ seq bonus,
        seq ≠ [] ∧
        (∀ n, n ∈ seq ↔
              ∃ i v, 1 ≤ i ≤ 5 ∧ line !! second_format i = Some v ∧
                     int_cell v = Ok n) ∧
        (∀ ns,
           Forall2 (λ i n, ∃ v, line !! second_format i = Some v ∧
                                int_cell v = Ok n) (seqZ 1 5) ns →
           seq = ns) ∧
        traverse (int_at line) (chance_keys Loto5Boules) = Ok bonus ∧
        (∀ r, r ∈ res → chance r = bonus) ∧
        extract_line strptime Loto5Boules line
        = (Ok (res ++ [mkLotoResult seq bonus None])%list, out))).
Proof.
  intros Hex. split; [apply Loto5Boules_base_raises|].
  intros res out Hres.
  split; [exact (Loto5Boules_bad_second line res out Hres)|].
  intros Hint.
  destruct (second_seq_present line Hex Hint) as (seq & Hne & Hseq & Hin).
  destruct (LotoFormat_extract_line_inv _ _ _ _ _ Hres)
    as (grid & bonus & d & Hg & Hb & Hd & Htry).
  exists seq, bonus. repeat split; try done.
  - by apply Hin.
  - by apply Hin.
  - intros ns Hns%second_seq_all_present.
    change (seqZ 1 (BOULES_NB Loto5Boules)) with (seqZ 1 5) in Hseq. congruence.
  - intros r Hr.
    destruct (try_formats_inv _ _ _ _ _ _ _ Htry) as [[= ->]|[dt [= ->]]].
    + by apply elem_of_nil in Hr.
    + apply list_elem_of_singleton in Hr. by subst r.
  - by apply Loto5Boules_with_second.
Qed.

(** C10 (amended). For a five-ball row that holds second-draw columns and
    whose date fails every applicable pattern: if a required main or bonus
    cell is not an integer, [extract_line] raises before the date is
    tried. With integer main and bonus cells the shared extraction yields
    nothing, after one warning per pattern; then, if every second-draw
    cell is an integer, [extract_line] returns exactly one result, the
    dateless second draw, and if a second-draw cell is not an integer it
    raises after the warnings and the row yields no result. *)
Theorem C10_second_draw_without_primary (line : row_dict) (d : string) :
  line !! DATE_KEY Loto5Boules = Some (Some d) →
  (∀ fmt, fmt ∈ find_date_format d → ¬ returns (strptime d fmt)) →
  (∃ i, 1 ≤ i ≤ 5 ∧ is_Some (line !! second_format i)) →
  ((∃ k, k ∈ (boule_keys Loto5Boules ++ chance_keys Loto5Boules)%list ∧
         ¬ returns (int_at line k)) →
   ∃ e, extract_line strptime Loto5Boules line = (Raise e, [])) ∧
  (∀ grid bonus,
     traverse (int_at line) (boule_keys Loto5Boules) = Ok grid →
     traverse (int_at line) (chance_keys Loto5Boules) = Ok bonus →
     LotoFormat_extract_line strptime Loto5Boules line
     = (Ok [], map (WarnDate d) (find_date_format d)) ∧
     ((∃ i v, 1 ≤ i ≤ 5 ∧ line !! second_format i = Some v ∧
              ¬ returns (int_cell v)) →
      ∃ e, extract_line strptime Loto5Boules line
           = (Raise e, map (WarnDate d) (find_date_format d))) ∧
     ((∀ i v, 1 ≤ i ≤ 5 → line !! second_format i = Some v →
              returns (int_cell v)) →
      ∃ seq,
        seq ≠ [] ∧
        (∀ n, n ∈ seq ↔
              ∃ i v, 1 ≤ i ≤ 5 ∧ line !! second_format i = Some v ∧
                     int_cell v = Ok n) ∧
        (∀ ns,
           Forall2 (λ i n, ∃ v, line !! second_format i = Some v ∧
                                int_cell v = Ok n) (seqZ 1 5) ns →
           seq = ns) ∧
        extract_line strptime Loto5Boules line
        = (Ok [mkLotoResult seq bonus None],
           map (WarnDate d) (find_date_format d)))).
Proof.
  intros Hd Hfail Hex. split.
  - intros Hbad.
    destruct (LotoFormat_extract_line_bad_number strptime Loto5Boules line Hbad)
      as [e He].
    exists e. by apply Loto5Boules_base_raises.
  - intros grid bonus Hg Hb.
    assert (LotoFormat_extract_line strptime Loto5Boules line
            = (Ok [], map (WarnDate d) (find_date_format d))) as Hbase.
    { rewrite (LotoFormat_extract_line_numbers _ _ _ _ _ _ Hg Hb Hd).
      by apply try_formats_all_fail. }
    split; [done|]. split; [exact (Loto5Boules_bad_second line _ _ Hbase)|].
    intros Hint.
    destruct (second_seq_present line Hex Hint) as (seq & Hne & Hseq & Hin).
    exists seq. repeat split; try done.
    + by apply Hin.
    + by apply Hin.
    + intros ns Hns%second_seq_all_present.
      change (seqZ 1 (BOULES_NB Loto5Boules)) with (seqZ 1 5) in Hseq. congruence.
    + by rewrite (Loto5Boules_with_second _ _ _ _ _ Hbase Hseq Hne Hb).
Qed.

End second_draw_facts.

(** The second-draw cells of the example rows. *)
Lemma line_second_tirage_cells (row : list string) :
  row = row_second_tirage ∨ row = row_second_tirage_bad_date →
  (∀ i v, 1 ≤ i ≤ 5 →
     dict_row header_second_tirage row !! second_format i = Some v →
     returns (int_cell v)) ∧
  Forall2 (λ i n, ∃ v, dict_row header_second_tirage row !! second_format i = Some v
                       ∧ int_cell v = Ok n)
          (seqZ 1 5) [11; 12; 13; 14; 15].
Proof.
  intros Hrow. split.
  - intros i v Hi Hv.
    destruct Hrow as [-> | ->]; cases_1_to_5 i Hi;
      vm_compute in Hv; injection Hv as <-; eexists; vm_compute; reflexivity.
  - destruct Hrow as [-> | ->];
      repeat (constructor; [eexists; split; vm_compute; reflexivity|]);
      constructor.
Defined.

(** C6, as the claim states it, fails: a row of a file claimed by the
    five-ball class holds the five second-draw columns, one of them with an
    empty cell; the shared extraction returns the primary draw, yet
    [extract_line] raises and returns no extra result. *)
Lemma C6_blank_second_draw_cell_raises :
  classify header_second_tirage = Some Loto5Boules ∧
  line_second_tirage_blank_cell !! "boule_1_second_tirage" = Some (Some "11") ∧
  line_second_tirage_blank_cell !! "boule_2_second_tirage" = Some (Some "") ∧
  LotoFormat_extract_line fixed_width_strptime Loto5Boules
    line_second_tirage_blank_cell
  = (Ok [mkLotoResult [1; 2; 3; 4; 5] [6] (Some (mkDate 2020 1 1))], []) ∧
  extract_line fixed_width_strptime Loto5Boules line_second_tirage_blank_cell
  = (Raise ValueError, []).
Proof. repeat split; vm_compute; reflexivity. Qed.

Lemma C6_second_draw_appended_witness :
  extract_line fixed_width_strptime Loto5Boules line_second_tirage
  = (Ok [mkLotoResult [1; 2; 3; 4; 5] [6] (Some (mkDate 2020 1 1));
         mkLotoResult [11; 12; 13; 14; 15] [6] None], []).
Proof.
  destruct (C6_second_draw_appended fixed_width_strptime line_second_tirage)
    as [_ Hret].
  - exists 1. split; [lia|]. vm_compute. eexists. reflexivity.
  - destruct (Hret [mkLotoResult [1; 2; 3; 4; 5] [6] (Some (mkDate 2020 1 1))] [])
      as [_ Hint]; [vm_compute; reflexivity|].
    destruct Hint as (seq & bonus & _ & _ & Hall & Hbonus & _ & Hext).
    + apply line_second_tirage_cells. by left.
    + rewrite Hext.
      rewrite (Hall [11; 12; 13; 14; 15])
        by (apply line_second_tirage_cells; by left).
      vm_compute in Hbonus. injection Hbonus as <-. reflexivity.
Defined.

(** C10, as the claim states it, fails: a five-ball row with second-draw
    columns, one of them with an empty cell, and a date that fails every
    pattern yields no result; [extract_line] raises after the warning and
    [read_loto_file] drops the whole file, the well-formed row before it
    included. *)
Lemma C10_blank_cell_yields_nothing :
  line_second_tirage_blank_cell_bad_date !! "boule_1_second_tirage"
  = Some (Some "11") ∧
  line_second_tirage_blank_cell_bad_date !! "boule_2_second_tirage"
  = Some (Some "") ∧
  find_date_format "01.01.2020" = ["%Y%m%d"] ∧
  fixed_width_strptime "01.01.2020" "%Y%m%d" = Raise ValueError ∧
  extract_line fixed_width_strptime Loto5Boules
    line_second_tirage_blank_cell_bad_date
  = (Raise ValueError, [WarnDate "01.01.2020" "%Y%m%d"]) ∧
  disk_second_tirage_blank_cell !! path_name loto_csv
  = Some [Cells header_second_tirage; Cells row_second_tirage;
          Cells row_second_tirage_blank_cell_bad_date] ∧
  read_loto_file fixed_width_strptime disk_second_tirage_blank_cell loto_csv
  = (Ok [], [WarnDate "01.01.2020" "%Y%m%d"; PrintError "loto.csv" ValueError]).
Proof. repeat split; vm_compute; reflexivity. Qed.

Lemma C10_second_draw_without_primary_witness :
  LotoFormat_extract_line fixed_width_strptime Loto5Boules
    line_second_tirage_bad_date
  = (Ok [], [WarnDate "01.01.2020" "%Y%m%d"]) ∧
  extract_line fixed_width_strptime Loto5Boules line_second_tirage_bad_date
  = (Ok [mkLotoResult [11; 12; 13; 14; 15] [6] None],
     [WarnDate "01.01.2020" "%Y%m%d"]).
Proof.
  destruct (C10_second_draw_without_primary fixed_width_strptime
              line_second_tirage_bad_date "01.01.2020") as [_ Hnum].
  - vm_compute. reflexivity.
  - intros fmt Hfmt [dt Hdt]. vm_compute in Hfmt.
    apply list_elem_of_singleton in Hfmt. subst fmt.
    vm_compute in Hdt. discriminate Hdt.
  - exists 1. split; [lia|]. vm_compute. eexists. reflexivity.
  - destruct (Hnum [1; 2; 3; 4; 5] [6]) as (Hbase & _ & Hint);
      [vm_compute; reflexivity..|].
    destruct Hint as (seq & _ & _ & Hall & Hext).
    + apply line_second_tirage_cells. by right.
    + rewrite Hbase, Hext.
      rewrite (Hall [11; 12; 13; 14; 15])
        by (apply line_second_tirage_cells; by right).
      by split.
Defined.

(** ** Loading files *)

Section loading_facts.

Variable strptime : string → string → result datetime.

Lemma bind_fst {A B} (m : Py A) (k : A → Py B) :
  (m ≫= k).1 = match m.1 with Ok a => (k a).1 | Raise e => Raise e end.
Proof. destruct m as [[a|e] out]; [by rewrite bind_ok|done]. Qed.

Lemma iter_rows_cons c h row rest :
  row ≠ [] →
  iter_rows strptime c h (Cells row :: rest)
  = (res ← extract_line strptime c (dict_row h row);
     more ← iter_rows strptime c h rest;
     mret (res ++ more)%list).
Proof. by destruct row. Qed.

Lemma iter_rows_cons_fst c h row rest :
  row ≠ [] →
  (iter_rows strptime c h (Cells row :: rest)).1
  = match (extract_line strptime c (dict_row h row)).1 with
    | Ok res =>
        match (iter_rows strptime c h rest).1 with
        | Ok more => Ok (res ++ more)%list
        | Raise e => Raise e
        end
    | Raise e => Raise e
    end.
Proof.
  intros Hrow. rewrite iter_rows_cons, bind_fst by done.
  destruct (extract_line strptime c (dict_row h row)).1; [|done].
  rewrite bind_fst. by destruct (iter_rows strptime c h rest).1.
Qed.

(** The results of a run over [pre ++ post]: those of [pre], then those of
    [post]; a raise in either ends the run. *)
Lemma iter_rows_app_fst c h pre post :
  (iter_rows strptime c h (pre ++ post)).1
  = match (iter_rows strptime c h pre).1 with
    | Ok r1 =>
        match (iter_rows strptime c h post).1 with
        | Ok r2 => Ok (r1 ++ r2)%list
        | Raise e => Raise e
        end
    | Raise e => Raise e
    end.
Proof.
  induction pre as [|[row|] pre IH].
  - simpl. by destruct (iter_rows strptime c h post).1.
  - destruct (decide (row = [])) as [->|Hrow]; [exact IH|].
    change ((Cells row :: pre) ++ post)%list with (Cells row :: (pre ++ post))%list.
    rewrite !iter_rows_cons_fst, IH by done.
    destruct (extract_line strptime c (dict_row h row)).1 as [res|]; [|done].
    destruct (iter_rows strptime c h pre).1 as [r1|]; [|done].
    destruct (iter_rows strptime c h post).1 as [r2|]; [|done].
    by rewrite app_assoc.
  - done.
Qed.

Lemma iter_rows_undecodable c h rest :
  Undecodable ∈ rest → ∃ e, (iter_rows strptime c h rest).1 = Raise e.
Proof.
  induction rest as [|[row|] rest IH].
  - by intros ?%elem_of_nil.
  - intros [?|Hin]%elem_of_cons; [done|]. destruct (IH Hin) as [e He].
    destruct (decide (row = [])) as [->|Hrow]; [by exists e|].
    rewrite iter_rows_cons_fst by done.
    destruct (extract_line strptime c (dict_row h row)).1; [|eauto].
    rewrite He. eauto.
  - intros _. by exists UnicodeDecodeError.
Qed.

(** With the file open and its suffix known, [read_loto_file] is the
    guarded body. *)
Lemma read_loto_file_opened (fs : disk) p records :
  fs !! path_name p = Some records → suffix p = ".csv" →
  read_loto_file strptime fs p
  = py_try (read_records strptime p records)
           (λ e, py_emit (PrintError (path_name p) e);; mret []).
Proof. intros Hfs Hsuf. unfold read_loto_file. by rewrite Hfs, Hsuf. Qed.

Lemma py_try_handler {A} (m : Py (list A)) name :
  py_try m (λ e, py_emit (PrintError name e);; mret [])
  = match m with
    | (Ok a, out) => (Ok a, out)
    | (Raise e, out) => (Ok [], (out ++ [PrintError name e])%list)
    end.
Proof. by destruct m as [[a|e] out]. Qed.

Lemma read_loto_file_opened_fst (fs : disk) p records :
  fs !! path_name p = Some records → suffix p = ".csv" →
  (read_loto_file strptime fs p).1
  = match (read_records strptime p records).1 with
    | Ok res => Ok res
    | Raise _ => Ok []
    end.
Proof.
  intros Hfs Hsuf. rewrite (read_loto_file_opened _ _ _ Hfs Hsuf), py_try_handler.
  by destruct (read_records strptime p records) as [[a|e] out].
Qed.

Lemma read_records_classified p h rest c :
  classify h = Some c →
  read_records strptime p (Cells h :: rest) = iter_rows strptime c h rest.
Proof.
  intros Hc. unfold read_records. cbn [fieldnames]. by rewrite bind_lift_ok, Hc.
Qed.

(** A header of at most one column, as when the file is not delimited by
    semicolons, is claimed by no class. *)
Lemma classify_one_column h : (length h ≤ 1)%nat → classify h = None.
Proof.
  intros Hlen.
  assert (∀ c : loto_class, is_one c (inr h) = false) as Hno.
  { intros c. destruct (is_one c (inr h)) eqn:E; [|done]. exfalso.
    apply is_one_header_spec in E as (Hb & _ & _).
    assert ("boule_1" ∈ h ∧ "boule_2" ∈ h) as [H1 H2].
    { destruct boule_keys_classes as (B5 & B6 & BE).
      split; apply Hb; destruct c; rewrite ?B5, ?B6, ?BE; by repeat constructor. }
    destruct h as [|x [|y h]]; [by apply elem_of_nil in H1| |simpl in Hlen; lia].
    apply list_elem_of_singleton in H1, H2. congruence. }
  unfold classify.
  change (LOTO_FORMATS.*2) with [Loto5Boules; Loto6Boules; EuroMillion].
  cbn [List.find]. by rewrite !Hno.
Qed.

Lemma main_results_returns (fs : disk) files :
  (∀ f, f ∈ files → is_Some (fs !! path_name f) ∧ suffix f = ".csv") →
  returns (main_results strptime fs files).1.
Proof.
  induction files as [|f files IH]; intros H; [by exists []|].
  destruct (H f) as [[records Hfs] Hsuf]; [apply list_elem_of_here|].
  destruct IH as [more Hmore].
  { intros g Hg. apply H. by apply list_elem_of_further. }
  cbn [main_results]. rewrite bind_fst, (read_loto_file_opened_fst _ _ _ Hfs Hsuf).
  destruct (read_records strptime f records).1 as [res|e];
    rewrite bind_fst, Hmore; by eexists.
Qed.

End loading_facts.

Section row_and_file_errors.

Variable strptime : string → string → result datetime.

Lemma bind_ret_r {A} (m : Py A) : (a ← m; mret a) = m.
Proof.
  destruct m as [[a|e] out]; [|done]. rewrite bind_ok. simpl.
  by rewrite app_nil_r.
Qed.

Lemma find_date_format_nonempty d : find_date_format d ≠ [].
Proof. unfold find_date_format. by destruct (has_char "/" d). Qed.

(** A row whose numbers are read and whose date fails every pattern, with
    no second-draw column: nothing is extracted, one warning per pattern. *)
Lemma extract_line_bad_date (c : loto_class) (line : row_dict) grid bonus d :
  traverse (int_at line) (boule_keys c) = Ok grid →
  traverse (int_at line) (chance_keys c) = Ok bonus →
  line !! DATE_KEY c = Some (Some d) →
  (∀ fmt, fmt ∈ find_date_format d → ¬ returns (strptime d fmt)) →
  (c = Loto5Boules → ∀ i, 1 ≤ i ≤ 5 → line !! second_format i = None) →
  LotoFormat_extract_line strptime c line
    = (Ok [], map (WarnDate d) (find_date_format d)) ∧
  extract_line strptime c line = (Ok [], map (WarnDate d) (find_date_format d)).
Proof.
  intros Hg Hb Hd Hfail Hsecond.
  assert (LotoFormat_extract_line strptime c line
          = (Ok [], map (WarnDate d) (find_date_format d))) as Hbase.
  { rewrite (LotoFormat_extract_line_numbers _ _ _ _ _ _ Hg Hb Hd).
    by apply try_formats_all_fail. }
  split; [done|]. destruct c; [|done..].
  rewrite Loto5Boules_without_second; [done|].
  apply second_seq_absent. intros i Hi%elem_of_seqZ_1_5. by apply Hsecond.
Qed.

Lemma iter_rows_cons_returns c h row rest res w :
  row ≠ [] →
  extract_line strptime c (dict_row h row) = (Ok res, w) →
  iter_rows strptime c h (Cells row :: rest)
  = (match (iter_rows strptime c h rest).1 with
     | Ok more => Ok (res ++ more)%list
     | Raise e => Raise e
     end,
     (w ++ (iter_rows strptime c h rest).2)%list).
Proof.
  intros Hrow Hres. rewrite iter_rows_cons, Hres, bind_ok by done.
  destruct (iter_rows strptime c h rest) as [[more|e] out]; [|done].
  rewrite bind_ok. simpl. by rewrite app_nil_r.
Qed.

(** C4 (amended). A row whose main and bonus cells are integers and whose
    date fails every applicable pattern is recoverable: the shared
    extraction reports one warning per pattern tried and returns no
    result. If the row is not a five-ball row with second-draw columns, it
    contributes zero results, the iteration goes on with the next row, and
    the file yields the results it yields without that row. If it is a
    five-ball row with second-draw columns whose cells are all integers, it
    contributes exactly its dateless second draw, and the iteration goes
    on with the next row. *)
Theorem C4_bad_date_recoverable (c : loto_class) (h row : list string)
    (grid bonus : list Z) (d : string) :
  row ≠ [] →
  traverse (int_at (dict_row h row)) (boule_keys c) = Ok grid →
  traverse (int_at (dict_row h row)) (chance_keys c) = Ok bonus →
  dict_row h row !! DATE_KEY c = Some (Some d) →
  (∀ fmt, fmt ∈ find_date_format d → ¬ returns (strptime d fmt)) →
  map (WarnDate d) (find_date_format d) ≠ [] ∧
  LotoFormat_extract_line strptime c (dict_row h row)
    = (Ok [], map (WarnDate d) (find_date_format d)) ∧
  ((c = Loto5Boules → ∀ i, 1 ≤ i ≤ 5 → dict_row h row !! second_format i = None) →
   extract_line strptime c (dict_row h row)
     = (Ok [], map (WarnDate d) (find_date_format d)) ∧
   (∀ rest,
      iter_rows strptime c h (Cells row :: rest)
      = ((iter_rows strptime c h rest).1,
         (map (WarnDate d) (find_date_format d)
          ++ (iter_rows strptime c h rest).2)%list)) ∧
   (∀ pre post,
      (iter_rows strptime c h (pre ++ Cells row :: post)).1
      = (iter_rows strptime c h (pre ++ post)).1) ∧
   (∀ (fs fs' : disk) p pre post,
      suffix p = ".csv" → classify h = Some c →
      fs !! path_name p = Some (Cells h :: pre ++ Cells row :: post)%list →
      fs' !! path_name p = Some (Cells h :: pre ++ post)%list →
      (read_loto_file strptime fs p).1 = (read_loto_file strptime fs' p).1 ∧
      returns (read_loto_file strptime fs p).1)) ∧
  (c = Loto5Boules →
   (∃ i, 1 ≤ i ≤ 5 ∧ is_Some (dict_row h row !! second_format i)) →
   (∀ i v, 1 ≤ i ≤ 5 → dict_row h row !! second_format i = Some v →
           returns (int_cell v)) →
   ∃ seq,
     seq ≠ [] ∧
     second_seq (dict_row h row) (seqZ 1 5) = Ok seq ∧
     extract_line strptime c (dict_row h row)
     = (Ok [mkLotoResult seq bonus None], map (WarnDate d) (find_date_format d)) ∧
     (∀ rest,
        iter_rows strptime c h (Cells row :: rest)
        = (match (iter_rows strptime c h rest).1 with
           | Ok more => Ok (mkLotoResult seq bonus None :: more)
           | Raise e => Raise e
           end,
           (map (WarnDate d) (find_date_format d)
            ++ (iter_rows strptime c h rest).2)%list)) ∧
     (∀ pre post r1 r2,
        (iter_rows strptime c h pre).1 = Ok r1 →
        (iter_rows strptime c h post).1 = Ok r2 →
        (iter_rows strptime c h (pre ++ Cells row :: post)).1
        = Ok (r1 ++ mkLotoResult seq bonus None :: r2)%list) ∧
     (∀ (fs : disk) p pre post r1 r2,
        suffix p = ".csv" → classify h = Some c →
        fs !! path_name p = Some (Cells h :: pre ++ Cells row :: post)%list →
        (iter_rows strptime c h pre).1 = Ok r1 →
        (iter_rows strptime c h post).1 = Ok r2 →
        (read_loto_file strptime fs p).1
        = Ok (r1 ++ mkLotoResult seq bonus None :: r2)%list)).
Proof.
  intros Hrow Hg Hb Hd Hfail.
  assert (LotoFormat_extract_line strptime c (dict_row h row)
          = (Ok [], map (WarnDate d) (find_date_format d))) as Hbase.
  { rewrite (LotoFormat_extract_line_numbers _ _ _ _ _ _ Hg Hb Hd).
    by apply try_formats_all_fail. }
  split.
  { intros E%(f_equal length). rewrite length_map in E.
    by destruct (find_date_format d) eqn:F;
      [apply find_date_format_nonempty in F|]. }
  split; [done|]. split.
  - intros Hsecond.
    destruct (extract_line_bad_date c _ _ _ _ Hg Hb Hd Hfail Hsecond)
      as [_ Hext].
    assert (∀ rest,
       iter_rows strptime c h (Cells row :: rest)
       = ((iter_rows strptime c h rest).1,
          (map (WarnDate d) (find_date_format d)
           ++ (iter_rows strptime c h rest).2)%list)) as Hnext.
    { intros rest. rewrite iter_rows_cons, Hext, bind_ok by done.
      cbn [app]. by rewrite bind_ret_r. }
    assert (∀ pre post,
       (iter_rows strptime c h (pre ++ Cells row :: post)).1
       = (iter_rows strptime c h (pre ++ post)).1) as Hskip.
    { intros pre post. rewrite !iter_rows_app_fst. by rewrite Hnext. }
    do 3 (split; [done|]).
    intros fs fs' p pre post Hsuf Hcls Hfs Hfs'.
    rewrite (read_loto_file_opened_fst _ _ _ _ Hfs Hsuf).
    rewrite (read_loto_file_opened_fst _ _ _ _ Hfs' Hsuf).
    rewrite !(read_records_classified _ _ _ _ _ Hcls), Hskip.
    split; [done|].
    destruct (iter_rows strptime c h (pre ++ post)).1; by eexists.
  - intros -> Hex Hint.
    destruct (second_seq_present _ Hex Hint) as (seq & Hne & Hseq & _).
    pose proof (Loto5Boules_with_second strptime _ _ _ _ _ Hbase Hseq Hne Hb)
      as Hext.
    cbn [app] in Hext.
    assert (∀ rest,
       iter_rows strptime Loto5Boules h (Cells row :: rest)
       = (match (iter_rows strptime Loto5Boules h rest).1 with
          | Ok more => Ok (mkLotoResult seq bonus None :: more)
          | Raise e => Raise e
          end,
          (map (WarnDate d) (find_date_format d)
           ++ (iter_rows strptime Loto5Boules h rest).2)%list)) as Hnext.
    { intros rest. by rewrite (iter_rows_cons_returns _ _ _ _ _ _ Hrow Hext). }
    assert (∀ pre post r1 r2,
       (iter_rows strptime Loto5Boules h pre).1 = Ok r1 →
       (iter_rows strptime Loto5Boules h post).1 = Ok r2 →
       (iter_rows strptime Loto5Boules h (pre ++ Cells row :: post)).1
       = Ok (r1 ++ mkLotoResult seq bonus None :: r2)%list) as Hmid.
    { intros pre post r1 r2 H1 H2.
      by rewrite iter_rows_app_fst, H1, Hnext, H2. }
    exists seq. do 5 (split; [done|]).
    intros fs p pre post r1 r2 Hsuf Hcls Hfs H1 H2.
    rewrite (read_loto_file_opened_fst _ _ _ _ Hfs Hsuf).
    by rewrite (read_records_classified _ _ _ _ _ Hcls), (Hmid _ _ _ _ H1 H2).
Qed.

(** C5 (amended). For a file that [open] delivers and whose suffix is
    supported, [read_loto_file] never raises. A decoding failure on the
    header, an empty file, a header no class claims (as is a header of one
    column, when the delimiter is not the semicolon), a decoding failure
    further down and any exception raised by a row are handled inside it:
    the file yields the empty list, with a warning when no class claims the
    header and a printed message for a caught exception. A run over files
    that all open does not raise. *)
Theorem C5_opened_file_errors_caught (fs : disk) (p : Path)
    (records : list record_read) :
  fs !! path_name p = Some records → suffix p = ".csv" →
  returns (read_loto_file strptime fs p).1 ∧
  (∀ rest, records = Undecodable :: rest →
     read_loto_file strptime fs p
     = (Ok [], [PrintError (path_name p) UnicodeDecodeError])) ∧
  (records = [] →
     read_loto_file strptime fs p = (Ok [], [PrintError (path_name p) TypeError])) ∧
  (∀ h rest, records = Cells h :: rest → classify h = None →
     read_loto_file strptime fs p = (Ok [], [WarnNoFormat (path_name p) h])) ∧
  (∀ h rest, records = Cells h :: rest → (length h ≤ 1)%nat →
     read_loto_file strptime fs p = (Ok [], [WarnNoFormat (path_name p) h])) ∧
  (∀ h rest c e out, records = Cells h :: rest → classify h = Some c →
     iter_rows strptime c h rest = (Raise e, out) →
     read_loto_file strptime fs p
     = (Ok [], (out ++ [PrintError (path_name p) e])%list)) ∧
  (∀ h rest, records = Cells h :: rest → Undecodable ∈ rest →
     (read_loto_file strptime fs p).1 = Ok []) ∧
  (∀ files,
     (∀ f, f ∈ files → is_Some (fs !! path_name f) ∧ suffix f = ".csv") →
     returns (main_results strptime fs files).1).
Proof.
  intros Hfs Hsuf.
  pose proof (read_loto_file_opened strptime _ _ _ Hfs Hsuf) as Hread.
  assert (∀ h rest, records = Cells h :: rest → classify h = None →
     read_loto_file strptime fs p = (Ok [], [WarnNoFormat (path_name p) h]))
    as Hnone.
  { intros h rest -> Hcls. rewrite Hread. unfold read_records.
    cbn [fieldnames]. by rewrite bind_lift_ok, Hcls. }
  split; [|split; [|split; [|split; [|split; [|split; [|split]]]]]].
  - rewrite (read_loto_file_opened_fst _ _ _ _ Hfs Hsuf).
    destruct (read_records strptime p records).1; by eexists.
  - intros rest ->. by rewrite Hread.
  - intros ->. by rewrite Hread.
  - exact Hnone.
  - intros h rest Hrec Hlen. apply (Hnone h rest Hrec).
    by apply classify_one_column.
  - intros h rest c e out -> Hcls Hiter.
    by rewrite Hread, py_try_handler, (read_records_classified _ _ _ _ _ Hcls), Hiter.
  - intros h rest -> Hin.
    rewrite (read_loto_file_opened_fst _ _ _ _ Hfs Hsuf).
    destruct (classify h) as [c|] eqn:Hcls.
    + rewrite (read_records_classified _ _ _ _ _ Hcls).
      by destruct (iter_rows_undecodable strptime c h rest Hin) as [e ->].
    + unfold read_records. cbn [fieldnames]. by rewrite bind_lift_ok, Hcls.
  - apply main_results_returns.
Qed.

End row_and_file_errors.

(** C4, as the claim states it, fails on both kinds of row error. A cell
    that is not a number at a required key raises out of [extract_line];
    [read_loto_file] catches the exception, prints a message (no warning)
    and drops every row of the file, the next, well-formed row included.
    And a five-ball row with second-draw columns whose date fails every
    pattern still contributes one result. *)
Lemma C4_row_errors_not_row_local :
  (int_at (dict_row header_5_boules row_bad_number) "boule_1" = Raise ValueError ∧
   extract_line fixed_width_strptime Loto5Boules
     (dict_row header_5_boules row_bad_number) = (Raise ValueError, []) ∧
   extract_line fixed_width_strptime Loto5Boules
     (dict_row header_5_boules row_other)
   = (Ok [mkLotoResult [7; 8; 9; 10; 11] [3] (Some (mkDate 2020 1 4))], []) ∧
   disk_bad_number !! path_name loto_csv
   = Some [Cells header_5_boules; Cells row_bad_number; Cells row_other] ∧
   read_loto_file fixed_width_strptime disk_bad_number loto_csv
   = (Ok [], [PrintError "loto.csv" ValueError])) ∧
  ((∀ fmt, fmt ∈ find_date_format "01.01.2020" →
      fixed_width_strptime "01.01.2020" fmt = Raise ValueError) ∧
   extract_line fixed_width_strptime Loto5Boules line_second_tirage_bad_date
   = (Ok [mkLotoResult [11; 12; 13; 14; 15] [6] None],
      [WarnDate "01.01.2020" "%Y%m%d"])).
Proof.
  split; [repeat split; vm_compute; reflexivity|].
  split; [|vm_compute; reflexivity].
  intros fmt Hfmt. vm_compute in Hfmt.
  apply list_elem_of_singleton in Hfmt. by subst fmt.
Qed.

Lemma C4_bad_date_recoverable_witness :
  extract_line fixed_width_strptime Loto5Boules
    (dict_row header_5_boules row_bad_date)
  = (Ok [], map (WarnDate "2020-01-01") (find_date_format "2020-01-01")) ∧
  (∀ rest,
     iter_rows fixed_width_strptime Loto5Boules header_5_boules
       (Cells row_bad_date :: rest)
     = ((iter_rows fixed_width_strptime Loto5Boules header_5_boules rest).1,
        (map (WarnDate "2020-01-01") (find_date_format "2020-01-01")
         ++ (iter_rows fixed_width_strptime Loto5Boules header_5_boules rest).2)%list)).
Proof.
  destruct (C4_bad_date_recoverable fixed_width_strptime Loto5Boules
              header_5_boules row_bad_date [1; 2; 3; 4; 5] [6] "2020-01-01")
    as (_ & _ & Hplain & _).
  - discriminate.
  - vm_compute. reflexivity.
  - vm_compute. reflexivity.
  - vm_compute. reflexivity.
  - intros fmt Hfmt [dt Hdt]. vm_compute in Hfmt.
    apply list_elem_of_singleton in Hfmt. subst fmt.
    vm_compute in Hdt. discriminate Hdt.
  - destruct Hplain as (Hext & Hnext & _).
    + intros _ i Hi. cases_1_to_5 i Hi; vm_compute; reflexivity.
    + split; [exact Hext|exact Hnext].
Defined.

(** C5, as the claim states it, fails: a file that cannot be opened makes
    [read_loto_file] raise, and the run over the files raises with it. *)
Lemma C5_missing_file_raises :
  disk_good !! path_name missing_csv = None ∧
  read_loto_file fixed_width_strptime disk_good missing_csv = (Raise OSError, []) ∧
  ¬ returns (read_loto_file fixed_width_strptime disk_good missing_csv).1 ∧
  main_results fixed_width_strptime disk_good [missing_csv; loto_csv]
  = (Raise OSError, []).
Proof.
  split; [vm_compute; reflexivity|]. split; [vm_compute; reflexivity|].
  split; [|vm_compute; reflexivity].
  intros [res Hres]. vm_compute in Hres. discriminate Hres.
Qed.

Lemma C5_opened_file_errors_caught_witness :
  returns (read_loto_file fixed_width_strptime disk_bad_number loto_csv).1.
Proof.
  apply (C5_opened_file_errors_caught fixed_width_strptime disk_bad_number
           loto_csv [Cells header_5_boules; Cells row_bad_number; Cells row_other]).
  - vm_compute. reflexivity.
  - reflexivity.
Defined.

(** ** Random generation *)

Section sampling_facts.

Lemma randbelow_lt n s : (0 < n)%nat → ((randbelow n s).1 < n)%nat.
Proof. intros Hn. simpl. apply Nat.mod_upper_bound. lia. Qed.

(** Replacing a cell by another value trades that cell for the value. *)
Lemma insert_Permutation (t : list Z) j x y :
  t !! j = Some x → x :: <[j := y]> t ≡ₚ y :: t.
Proof.
  intros Hj. rewrite insert_take_drop by (by eapply lookup_lt_Some).
  rewrite <- (take_drop_middle t j x Hj) at 3.
  rewrite <- !Permutation_middle. apply Permutation_swap.
Qed.

(** One step of the selection loop: the drawn cell and the cells that
    stay available make up the cells that were available. *)
Lemma pool_step (pool : list Z) n j :
  (0 < n ≤ length pool)%nat → (j < n)%nat →
  (pool !!! j) :: take (n - 1) (<[j := pool !!! (n - 1)%nat]> pool)
  ≡ₚ take n pool.
Proof.
  intros Hn Hj.
  assert (pool !! (n - 1)%nat = Some (pool !!! (n - 1)%nat)) as Hlast.
  { apply list_lookup_lookup_total_lt. lia. }
  assert (take n pool = (take (n - 1) pool ++ [pool !!! (n - 1)%nat])%list) as ->.
  { replace n with (S (n - 1)) at 1 by lia. by apply take_S_r. }
  destruct (decide (j = n - 1)%nat) as [->|Hne].
  - rewrite take_insert_ge by lia. apply Permutation_cons_append.
  - rewrite take_insert_lt by lia.
    rewrite insert_Permutation.
    + apply Permutation_cons_append.
    + rewrite lookup_take_lt by lia.
      apply list_lookup_lookup_total_lt. lia.
Qed.

(** The selection loop returns [k] distinct cells of the available ones. *)
Lemma sample_pool_spec k :
  ∀ (pool : list Z) n s,
    (n ≤ length pool)%nat → (k ≤ n)%nat → NoDup (take n pool) →
    length (sample_pool pool n k s).1 = k ∧
    NoDup (sample_pool pool n k s).1 ∧
    (∀ x, x ∈ (sample_pool pool n k s).1 → x ∈ take n pool).
Proof.
  induction k as [|k IH]; intros pool n s Hn Hk Hnd.
  - simpl. split; [done|]. split; [constructor|]. by intros x ?%elem_of_nil.
  - cbn [sample_pool].
    destruct (randbelow n s) as [j s1] eqn:Hr.
    assert (j < n)%nat as Hj.
    { change j with (j, s1).1. rewrite <- Hr. apply randbelow_lt. lia. }
    set (pool' := <[j := pool !!! (n - 1)%nat]> pool).
    pose proof (pool_step pool n j ltac:(lia) Hj) as Hperm. fold pool' in Hperm.
    destruct (sample_pool pool' (n - 1) k s1) as [rest s2] eqn:Hrest.
    destruct (IH pool' (n - 1)%nat s1) as (Hlen & Hnd' & Hin).
    { unfold pool'. rewrite length_insert. lia. }
    { lia. }
    { rewrite <- Hperm in Hnd. by apply NoDup_cons in Hnd as [_ ?]. }
    rewrite Hrest in Hlen, Hnd', Hin. simpl in *.
    split; [by rewrite Hlen|]. split.
    + apply NoDup_cons. split; [|done].
      intros Hx%Hin. rewrite <- Hperm in Hnd.
      by apply NoDup_cons in Hnd as [? _].
    + intros x [->|Hx]%elem_of_cons; rewrite <- Hperm.
      * apply list_elem_of_here.
      * by apply list_elem_of_further, Hin.
Qed.

Lemma sample_spec (population : list Z) (k : Z) s :
  0 ≤ k ≤ Z.of_nat (length population) → NoDup population →
  ∃ r s', sample population k s = (Ok r, s') ∧
          Z.of_nat (length r) = k ∧ NoDup r ∧ (∀ x, x ∈ r → x ∈ population).
Proof.
  intros Hk Hnd. unfold sample. rewrite decide_True by done.
  destruct (sample_pool_spec (Z.to_nat k) population (length population) s)
    as (Hlen & Hnd' & Hin); [lia|lia|by rewrite take_ge|].
  destruct (sample_pool population (length population) (Z.to_nat k) s)
    as [r s'].
  exists r, s'. simpl in *. split; [done|]. split; [lia|]. split; [done|].
  intros x Hx%Hin. by rewrite take_ge in Hx.
Qed.

(** What [generate] returns for a class whose counts fit its ranges. *)
Lemma generate_spec (cls : LotoFormat) s :
  0 ≤ BOULES_NB cls ≤ MAX cls → 0 ≤ CHANCE_NB cls ≤ MAX_CHANCE cls →
  ∃ r s', generate cls s = (Ok r, s') ∧
    Z.of_nat (length (grid r)) = BOULES_NB cls ∧ NoDup (grid r) ∧
    (∀ x, x ∈ grid r → 1 ≤ x ≤ MAX cls) ∧
    Z.of_nat (length (chance r)) = CHANCE_NB cls ∧ NoDup (chance r) ∧
    (∀ x, x ∈ chance r → 1 ≤ x ≤ MAX_CHANCE cls) ∧
    date r = None.
Proof.
  intros Hb Hc. unfold generate.
  destruct (sample_spec (seqZ 1 (MAX cls)) (BOULES_NB cls) s)
    as (g & s1 & -> & Hlg & Hndg & Hing).
  { rewrite length_seqZ. lia. }
  { apply NoDup_seqZ. }
  destruct (sample_spec (seqZ 1 (MAX_CHANCE cls)) (CHANCE_NB cls) s1)
    as (ch & s2 & -> & Hlc & Hndc & Hinc).
  { rewrite length_seqZ. lia. }
  { apply NoDup_seqZ. }
  exists (mkLotoResult g ch None), s2. simpl. repeat split; try done.
  - apply Hing, elem_of_seqZ in H. lia.
  - apply Hing, elem_of_seqZ in H. lia.
  - apply Hinc, elem_of_seqZ in H. lia.
  - apply Hinc, elem_of_seqZ in H. lia.
Qed.

End sampling_facts.

(** C8. For every class and every state of the random source, [generate]
    returns a result whose grid holds exactly [BOULES_NB] pairwise
    distinct integers of [1 .. MAX], whose bonus numbers are exactly
    [CHANCE_NB] pairwise distinct integers of [1 .. MAX_CHANCE], and which
    has no date. *)
Theorem C8_generate_in_range (c : loto_class) (s : rng) :
  ∃ r s', generate c s = (Ok r, s') ∧
    Z.of_nat (length (grid r)) = BOULES_NB c ∧ NoDup (grid r) ∧
    (∀ x, x ∈ grid r → 1 ≤ x ≤ MAX c) ∧
    Z.of_nat (length (chance r)) = CHANCE_NB c ∧ NoDup (chance r) ∧
    (∀ x, x ∈ chance r → 1 ≤ x ≤ MAX_CHANCE c) ∧
    date r = None.
Proof. apply generate_spec; destruct c; simpl; lia. Qed.

(** ** Generation of an unseen draw *)

Lemma eqb_result_false x h :
  eqb_result x h = false ↔ LotoResult_eq x (PyLoto h) = Ok false.
Proof.
  unfold eqb_result. destruct (LotoResult_eq_total x h) as [v ->].
  split; [by intros ->|by intros [= ->]].
Qed.

Lemma result_in_false x results :
  result_in x results = false ↔
  ∀ h, h ∈ results → LotoResult_eq x (PyLoto h) = Ok false.
Proof.
  unfold result_in. induction results as [|h' results IH]; cbn [existsb].
  - split; [|done]. by intros _ h ?%elem_of_nil.
  - rewrite orb_false_iff, IH, eqb_result_false. split.
    + intros [Hh' Hrest] h [->|Hh]%elem_of_cons; [done|by apply Hrest].
    + intros H. split.
      * apply H, list_elem_of_here.
      * intros h Hh. by apply H, list_elem_of_further.
Qed.

(** The loop returns the first candidate that is not in the history. *)
Lemma generate_tirage_first fuel results (cls : LotoFormat) s g s' :
  generate cls s = (Ok g, s') → result_in g results = false →
  generate_tirage (S fuel) results cls s = Some (Ok g, s').
Proof. intros Hg Hin. cbn [generate_tirage]. by rewrite Hg, Hin. Qed.

Lemma generate_tirage_more_fuel fuel results (cls : LotoFormat) s v :
  generate_tirage fuel results cls s = Some v →
  generate_tirage (S fuel) results cls s = Some v.
Proof.
  revert s. induction fuel as [|fuel IH]; intros s; [done|].
  intros H. cbn [generate_tirage] in *.
  destruct (generate cls s) as [[gen|e] s1]; [|done].
  destruct (result_in gen results); [|done]. by apply IH.
Qed.

(** C7. Whenever [generate_tirage] returns a result [g] for a history and
    a class, no entry [h] of the history satisfies [g == h] (nor
    [h == g]). *)
Theorem C7_generated_is_unseen (fuel : nat) (results : list LotoResult)
    (cls : LotoFormat) (s s' : rng) (g : LotoResult) :
  generate_tirage fuel results cls s = Some (Ok g, s') →
  ∀ h, h ∈ results →
    LotoResult_eq g (PyLoto h) = Ok false ∧ LotoResult_eq h (PyLoto g) = Ok false.
Proof.
  revert s. induction fuel as [|fuel IH]; intros s; [done|].
  cbn [generate_tirage].
  destruct (generate cls s) as [[gen|e] s1]; [|done].
  destruct (result_in gen results) eqn:Hin; [apply IH|].
  intros [= -> ->] h Hh.
  rewrite (LotoResult_eq_sym h g).
  pose proof (proj1 (result_in_false g results) Hin h Hh). by split.
Qed.

Lemma C7_generated_is_unseen_witness :
  LotoResult_eq (mkLotoResult [7; 8; 9; 10; 11] [2] None)
                (PyLoto (mkLotoResult [1; 2; 3; 4; 5] [1] None)) = Ok false ∧
  LotoResult_eq (mkLotoResult [1; 2; 3; 4; 5] [1] None)
                (PyLoto (mkLotoResult [7; 8; 9; 10; 11] [2] None)) = Ok false.
Proof.
  eapply (C7_generated_is_unseen 3 history_12345 Loto5Boules counting).
  - vm_compute. reflexivity.
  - apply list_elem_of_here.
Defined.

(** * Further properties of the code *)

(** ** Equality as a relation *)

(** X1. [==] is reflexive and symmetric on all results, whatever the lengths
    of their grids. *)
Theorem X1_eq_reflexive_symmetric (a b : LotoResult) :
  LotoResult_eq a (PyLoto a) = Ok true ∧
  LotoResult_eq a (PyLoto b) = LotoResult_eq b (PyLoto a) ∧
  LotoResult_ne a (PyLoto a) = Ok false.
Proof.
  split; [apply LotoResult_eq_refl|]. split; [apply LotoResult_eq_sym|].
  unfold LotoResult_ne. by rewrite LotoResult_eq_refl.
Qed.

(** X2. Among results whose grids have one length [==] is transitive; across
    lengths it is not: a longer grid equals two shorter grids that differ
    from one another. *)
Theorem X2_eq_transitive_same_length_only (a b c : LotoResult) :
  (length (grid a) = length (grid b) → length (grid b) = length (grid c) →
   LotoResult_eq a (PyLoto b) = Ok true →
   LotoResult_eq b (PyLoto c) = Ok true →
   LotoResult_eq a (PyLoto c) = Ok true) ∧
  ¬ (∀ x y z : LotoResult,
       LotoResult_eq x (PyLoto y) = Ok true →
       LotoResult_eq y (PyLoto z) = Ok true →
       LotoResult_eq x (PyLoto z) = Ok true).
Proof.
  split.
  - intros Lab Lbc Hab Hbc.
    apply LotoResult_eq_same_length in Hab; [|done].
    apply LotoResult_eq_same_length in Hbc; [|done].
    apply LotoResult_eq_same_length; [congruence|]. by rewrite Hab.
  - intros H. specialize (H only_1 both_1_2 only_2 eq_refl eq_refl).
    discriminate H.
Qed.

Lemma X2_eq_transitive_same_length_only_witness :
  LotoResult_eq (mkLotoResult [1; 2] [3] None)
                (PyLoto (mkLotoResult [2; 1] [] None)) = Ok true.
Proof.
  apply (proj1 (X2_eq_transitive_same_length_only
                  (mkLotoResult [1; 2] [3] None) (mkLotoResult [2; 1] [4] None)
                  (mkLotoResult [2; 1] [] None))); reflexivity.
Defined.

Lemma LotoResult_eq_empty_grid (a b : LotoResult) :
  grid a = [] → LotoResult_eq a (PyLoto b) = Ok true.
Proof.
  intros Ha.
  destruct (decide (length (grid a) = length (grid b))) as [L|L].
  - apply LotoResult_eq_same_length; [done|].
    rewrite Ha in *. destruct (grid b); [done|discriminate L].
  - apply LotoResult_eq_shorter.
    + rewrite Ha in *. simpl in *. lia.
    + rewrite Ha. by intros x ?%elem_of_nil.
Qed.

(** X3. A result with an empty grid is equal to every result, on either side
    of [==]. *)
Theorem X3_eq_empty_grid (a b : LotoResult) :
  grid a = [] →
  LotoResult_eq a (PyLoto b) = Ok true ∧ LotoResult_eq b (PyLoto a) = Ok true.
Proof.
  intros Ha. rewrite (LotoResult_eq_sym b a).
  split; by apply LotoResult_eq_empty_grid.
Qed.

Lemma X3_eq_empty_grid_witness :
  LotoResult_eq (mkLotoResult [] [6] None) (PyLoto draw_12345_6) = Ok true ∧
  LotoResult_eq draw_12345_6 (PyLoto (mkLotoResult [] [6] None)) = Ok true.
Proof.
  apply (X3_eq_empty_grid (mkLotoResult [] [6] None) draw_12345_6). reflexivity.
Defined.

(** [a == b] in terms of the grids alone. *)
Lemma LotoResult_eq_true_iff (a b : LotoResult) :
  LotoResult_eq a (PyLoto b) = Ok true ↔
  (length (grid a) = length (grid b) ∧ grid a ≡ₚ grid b) ∨
  ((length (grid a) < length (grid b))%nat ∧ ∀ n, n ∈ grid a → n ∈ grid b) ∨
  ((length (grid b) < length (grid a))%nat ∧ ∀ n, n ∈ grid b → n ∈ grid a).
Proof.
  destruct (lt_eq_lt_dec (length (grid a)) (length (grid b))) as [[L|L]|L].
  - rewrite (LotoResult_eq_shorter a b L). split; [auto|].
    intros [[? _]|[[_ ?]|[? _]]]; [lia|done|lia].
  - rewrite (LotoResult_eq_same_length a b L). split; [auto|].
    intros [[_ ?]|[[? _]|[? _]]]; [done|lia|lia].
  - rewrite (LotoResult_eq_longer a b L). split; [auto|].
    intros [[? _]|[[? _]|[_ ?]]]; [lia|lia|done].
Qed.

(** X4. [x in results], the test of the lookup mode and of the generation
    loop: it holds iff some entry of the history has the same numbers as
    [x] (equal lengths), contains all the numbers of [x] (longer entry), or
    has all its numbers in [x] (shorter entry). *)
Theorem X4_result_in_spec (x : LotoResult) (results : list LotoResult) :
  result_in x results = true ↔
  ∃ h, h ∈ results ∧
    ((length (grid x) = length (grid h) ∧ grid x ≡ₚ grid h) ∨
     ((length (grid x) < length (grid h))%nat ∧ ∀ n, n ∈ grid x → n ∈ grid h) ∨
     ((length (grid h) < length (grid x))%nat ∧ ∀ n, n ∈ grid h → n ∈ grid x)).
Proof.
  unfold result_in. rewrite existsb_exists.
  split; intros (h & Hh & H); exists h.
  - split; [by apply list_elem_of_In|]. apply LotoResult_eq_true_iff.
    unfold eqb_result in H. by destruct (LotoResult_eq x (PyLoto h)) as [[]|].
  - split; [by apply list_elem_of_In|].
    apply LotoResult_eq_true_iff in H. unfold eqb_result. by rewrite H.
Qed.

(** ** Text of a result and parsing *)

Lemma traverse_length {A B} (f : A → result B) l ys :
  traverse f l = Ok ys → length ys = length l.
Proof.
  revert ys. induction l as [|x l IH]; intros ys; simpl.
  - by intros [= <-].
  - destruct (f x); [|done]. destruct (traverse f l) as [zs|]; [|done].
    intros [= <-]. simpl. by rewrite (IH zs).
Qed.

Lemma partition_no_sep sep s :
  has_char sep s = false → partition sep s = (s, "", "").
Proof.
  induction s as [|c s IH]; simpl; [done|].
  intros [Hc Hs]%orb_false_elim. by rewrite Hc, (IH Hs).
Qed.

Lemma string_app_inv_head (s x y : string) : s +:+ x = s +:+ y → x = y.
Proof.
  induction s as [|c s IH]; [done|].
  rewrite !string_app_cons. intros [= H]. by apply IH.
Qed.

(** The parser on the text of two lists of numbers. *)
Lemma from_string_format (g c : list Z) :
  g ≠ [] → c ≠ [] → (∀ x, x ∈ g → 0 ≤ x) →
  from_string (join "-" (map py_str g) +:+ "+" +:+ join "+" (map py_str c))
  = Ok (mkLotoResult g c None).
Proof.
  intros Hg Hc Hpos. unfold from_string.
  change ("+" +:+ ?s) with (String "+" s).
  rewrite partition_app.
  2:{ apply has_char_join; [done|]. apply Forall_map, Forall_forall.
      intros x _. apply py_str_no_plus. }
  rewrite (split_join "-"), (split_join "+"), !traverse_py_int_map; [done|..].
  - by destruct c.
  - apply Forall_map, Forall_forall. intros x _. apply py_str_no_plus.
  - by destruct g.
  - apply Forall_map, Forall_forall. intros x Hx. by apply py_str_no_minus, Hpos.
Qed.

(** X5. The form the command line takes, [1-2-3-4-5+6], is parsed into the
    numbers in the order written, without a date: main numbers must be
    non-negative, and both lists non-empty. *)
Theorem X5_from_string_parses_numbers (g c : list Z) :
  g ≠ [] → c ≠ [] → (∀ x, x ∈ g → 0 ≤ x) →
  from_string (join "-" (map py_str g) +:+ "+" +:+ join "+" (map py_str c))
  = Ok (mkLotoResult g c None).
Proof. apply from_string_format. Qed.

Lemma X5_from_string_parses_numbers_witness :
  from_string "5-3-1-1+10+-2" = Ok (mkLotoResult [5; 3; 1; 1] [10; -2] None).
Proof.
  apply (X5_from_string_parses_numbers [5; 3; 1; 1] [10; -2]); [done|done|].
  intros x Hx. rewrite !elem_of_cons, elem_of_nil in Hx. lia.
Defined.

(** X6. The parser either raises [ValueError] or returns a dateless result
    with at least one main and one bonus number; a text without a plus
    sign is always rejected. *)
Theorem X6_from_string_outcomes (s : string) :
  (from_string s = Raise ValueError ∨
   ∃ g c, from_string s = Ok (mkLotoResult g c None) ∧ g ≠ [] ∧ c ≠ []) ∧
  (has_char "+" s = false → from_string s = Raise ValueError).
Proof.
  split.
  - unfold from_string. destruct (partition "+" s) as [[gs m] cs].
    destruct (traverse py_int (split "-" gs)) as [g|] eqn:Eg; [|by left].
    destruct (traverse py_int (split "+" cs)) as [c|] eqn:Ec; [|by left].
    right. exists g, c. split; [done|].
    apply traverse_length in Eg, Ec.
    destruct (split_cons_form "-" gs) as (w & ws & Hw).
    destruct (split_cons_form "+" cs) as (w' & ws' & Hw').
    rewrite Hw in Eg. rewrite Hw' in Ec.
    split; intros ->; discriminate.
  - intros Hno. unfold from_string. rewrite (partition_no_sep _ _ Hno).
    by destruct (traverse py_int (split "-" s)).
Qed.

Lemma X6_from_string_outcomes_witness :
  from_string "1-1-1-1-1:1" = Raise ValueError.
Proof.
  apply (proj2 (X6_from_string_outcomes "1-1-1-1-1:1")). reflexivity.
Defined.

(** X7. The text of a result does not depend on the order of its numbers; for
    dateless results with non-empty lists and no negative main number the
    text determines the numbers up to order. *)
Theorem X7_str_up_to_order (a b : LotoResult) :
  (grid a ≡ₚ grid b → chance a ≡ₚ chance b → date a = date b →
   LotoResult_str a = LotoResult_str b) ∧
  (date a = None → date b = None →
   grid a ≠ [] → chance a ≠ [] → grid b ≠ [] → chance b ≠ [] →
   (∀ x, x ∈ grid a → 0 ≤ x) → (∀ x, x ∈ grid b → 0 ≤ x) →
   LotoResult_str a = LotoResult_str b →
   grid a ≡ₚ grid b ∧ chance a ≡ₚ chance b).
Proof.
  split.
  - intros Hg Hc Hd. unfold LotoResult_str.
    apply sorted_eq_iff in Hg, Hc. by rewrite Hg, Hc, Hd.
  - intros Da Db Ga Ca Gb Cb Pa Pb Hstr.
    unfold LotoResult_str in Hstr. rewrite Da, Db in Hstr.
    cbv zeta iota beta in Hstr. rewrite !string_app_nil_r in Hstr.
    apply string_app_inv_head in Hstr as Hbody.
    assert (Ok (mkLotoResult (sorted (grid a)) (sorted (chance a)) None)
            = Ok (mkLotoResult (sorted (grid b)) (sorted (chance b)) None)) as E.
    { rewrite <- !from_string_format.
      - by rewrite Hbody.
      - intros E%(f_equal length). rewrite sorted_Permutation in E.
        by destruct (grid b).
      - intros E%(f_equal length). rewrite sorted_Permutation in E.
        by destruct (chance b).
      - intros x Hx. apply Pb. by rewrite <- (sorted_Permutation (grid b)).
      - intros E%(f_equal length). rewrite sorted_Permutation in E.
        by destruct (grid a).
      - intros E%(f_equal length). rewrite sorted_Permutation in E.
        by destruct (chance a).
      - intros x Hx. apply Pa. by rewrite <- (sorted_Permutation (grid a)). }
    injection E as Eg Ec. split; by apply sorted_eq_iff.
Qed.

Lemma X7_str_up_to_order_witness :
  LotoResult_str draw_12345_6
  = LotoResult_str (mkLotoResult [1; 2; 3; 4; 5] [6] None).
Proof.
  apply (proj1 (X7_str_up_to_order draw_12345_6
                  (mkLotoResult [1; 2; 3; 4; 5] [6] None))).
  - apply sorted_eq_iff. reflexivity.
  - done.
  - done.
Defined.

(** ** Column keys *)

Section key_facts.

Lemma py_str_inj : Inj (=) (=) py_str.
Proof.
  intros i j H. assert (Ok i = Ok j) as [= ?]; [|done].
  by rewrite <- (py_int_py_str i), <- (py_int_py_str j), H.
Qed.

#[local] Instance formatter_inj prefix : Inj (=) (=) (formatter prefix).
Proof. intros i j H. by apply string_app_inv_head, py_str_inj in H. Qed.

Lemma startswith_app (p s : string) : startswith (p +:+ s) p = true.
Proof.
  unfold startswith. induction p as [|c p IH]; [by destruct s|].
  rewrite string_app_cons. simpl. by destruct (ascii_dec c c).
Qed.

Lemma startswith_refl (p : string) : startswith p p = true.
Proof. rewrite <- (string_app_nil_r p) at 1. apply startswith_app. Qed.

Lemma indexed_keys (prefix : string) (n : Z) :
  let keys := if decide (n = 1) then [prefix]
              else map (formatter prefix) (seqZ 1 n) in
  length keys = Z.to_nat n ∧ NoDup keys ∧
  ∀ k, k ∈ keys → startswith k prefix = true.
Proof.
  cbv zeta. destruct (decide (n = 1)) as [->|Hn].
  - split; [done|]. split; [apply NoDup_singleton|].
    intros k ->%list_elem_of_singleton. apply startswith_refl.
  - split; [by rewrite length_map, length_seqZ|]. split.
    + apply (NoDup_fmap_2 _), NoDup_seqZ.
    + intros k (i & -> & _)%list_elem_of_fmap. apply startswith_app.
Qed.

Lemma boule_keys_length (cls : LotoFormat) :
  length (boule_keys cls) = Z.to_nat (BOULES_NB cls).
Proof. apply indexed_keys. Qed.

Lemma chance_keys_length (cls : LotoFormat) :
  length (chance_keys cls) = Z.to_nat (CHANCE_NB cls).
Proof. apply indexed_keys. Qed.

End key_facts.

(** X8. [boule_keys] and [chance_keys] list as many column names as the class
    has main and bonus numbers; the names are pairwise distinct and all
    start with the prefix of the class. *)
Theorem X8_keys_distinct (cls : LotoFormat) :
  (length (boule_keys cls) = Z.to_nat (BOULES_NB cls) ∧ NoDup (boule_keys cls) ∧
   ∀ k, k ∈ boule_keys cls → startswith k (BOULE_PREFIX cls) = true) ∧
  (length (chance_keys cls) = Z.to_nat (CHANCE_NB cls) ∧ NoDup (chance_keys cls) ∧
   ∀ k, k ∈ chance_keys cls → startswith k (CHANCE_PREFIX cls) = true).
Proof. split; apply indexed_keys. Qed.

Lemma X8_keys_distinct_witness : startswith "boule_3" "boule_" = true.
Proof.
  apply (proj2 (proj2 (proj1 (X8_keys_distinct Loto5Boules)))).
  vm_compute. do 2 apply list_elem_of_further. apply list_elem_of_here.
Defined.

(** ** The whitelist pattern *)

Section whitelist_facts.

Lemma re_match_lit (s : string) (p : regex) (key : string) :
  re_match (re_lit s ++ p)%list key = true ↔
  ∃ rest, key = s +:+ rest ∧ re_match p rest = true.
Proof.
  revert key. induction s as [|c s IH]; intros key.
  - split; [by exists key|]. by intros (rest & -> & H).
  - change (re_lit (String c s) ++ p)%list with (ReChar c :: (re_lit s ++ p))%list.
    cbn [re_match item_matches]. destruct key as [|c' key].
    + split; [done|]. by intros (rest & ? & _).
    + rewrite andb_true_iff, IH. split.
      * intros [->%Ascii.eqb_eq (rest & -> & H)]. by exists rest.
      * intros (rest & [= -> ->] & H). split; [apply Ascii.eqb_refl|by exists rest].
Qed.

Lemma range_1_5 (c : ascii) :
  item_matches (ReRange "1" "5") c = true ↔
  ∃ i, 1 ≤ i ≤ 5 ∧ py_str i = String c "".
Proof.
  split.
  - unfold item_matches. intros [H1 H2]%andb_prop.
    apply Nat.leb_le in H1, H2.
    change (nat_of_ascii "1") with 49%nat in H1.
    change (nat_of_ascii "5") with 53%nat in H2.
    assert (c = ascii_of_nat (nat_of_ascii c)) as -> by by rewrite ascii_nat_embedding.
    assert (nat_of_ascii c = 49 ∨ nat_of_ascii c = 50 ∨ nat_of_ascii c = 51 ∨
            nat_of_ascii c = 52 ∨ nat_of_ascii c = 53)%nat as Hc by lia.
    destruct Hc as [-> | [-> | [-> | [-> | ->]]]];
      [exists 1|exists 2|exists 3|exists 4|exists 5]; by split.
  - intros (i & Hi & Hs). cases_1_to_5 i Hi; by injection Hs as <-.
Qed.

End whitelist_facts.

(** X9. The whitelist of the five-ball class accepts exactly the column names
    that begin with [boule_i_second_tirage] for an [i] of 1 to 5, whatever
    follows; the other two classes whitelist nothing. *)
Theorem X9_whitelist_prefix_match (key : string) :
  (whitelist Loto5Boules key = true ↔
   ∃ i rest, 1 ≤ i ≤ 5 ∧ key = second_format i +:+ rest) ∧
  whitelist Loto6Boules key = false ∧
  whitelist EuroMillion key = false.
Proof.
  split; [|done].
  change (whitelist Loto5Boules key)
    with (re_match (re_lit "boule_"
                    ++ (ReRange "1" "5" :: (re_lit "_second_tirage" ++ [])))%list key).
  rewrite re_match_lit. split.
  - intros (r1 & -> & H). destruct r1 as [|c r2]; [done|].
    cbn [re_match] in H. apply andb_prop in H as [Hc H].
    apply re_match_lit in H as (rest & -> & _).
    apply range_1_5 in Hc as (i & Hi & Hs).
    exists i, rest. split; [done|]. unfold second_format. rewrite Hs. reflexivity.
  - intros (i & rest & Hi & ->).
    assert (∃ c, py_str i = String c "" ∧ item_matches (ReRange "1" "5") c = true)
      as (c & Hs & Hc).
    { cases_1_to_5 i Hi; eexists; split; reflexivity. }
    exists (String c ("_second_tirage" +:+ rest)). split.
    + unfold second_format. rewrite Hs. reflexivity.
    + cbn [re_match]. rewrite Hc. apply re_match_lit. by exists rest.
Qed.

Lemma X9_whitelist_prefix_match_witness :
  whitelist Loto5Boules "boule_3_second_tirage_bis" = true.
Proof.
  apply (proj2 (proj1 (X9_whitelist_prefix_match "boule_3_second_tirage_bis"))).
  exists 3, "_bis". split; [lia|reflexivity].
Defined.

(** ** Classes that claim one header *)

(** X10. No header is claimed by the six-ball class together with another
    class. The five-ball class and EuroMillion can claim the same header;
    the registry then returns the five-ball class, the first in
    [LOTO_FORMATS]. *)
Theorem X10_header_classes_overlap (header : list string) :
  ¬ (is_one Loto5Boules (inr header) = true ∧
     is_one Loto6Boules (inr header) = true) ∧
  ¬ (is_one Loto6Boules (inr header) = true ∧
     is_one EuroMillion (inr header) = true) ∧
  (is_one Loto5Boules (inr header) = true → classify header = Some Loto5Boules) ∧
  (∀ c, classify header = Some c → is_one c (inr header) = true) ∧
  (is_one Loto5Boules (inr header_5_and_euro) = true ∧
   is_one EuroMillion (inr header_5_and_euro) = true).
Proof.
  destruct boule_keys_classes as (B5 & B6 & BE).
  destruct chance_keys_classes as (C5 & C6 & CE).
  assert (∀ c : loto_class, c = Loto5Boules ∨ c = EuroMillion →
            is_one c (inr header) = true →
            is_one Loto6Boules (inr header) = true → False) as Hsix.
  { intros c Hc (_ & _ & Hextra)%is_one_header_spec (Hb6 & _ & _)%is_one_header_spec.
    assert ("boule_6" ∈ header) as Hin.
    { apply Hb6. rewrite B6. by repeat constructor. }
    destruct Hc as [-> | ->];
      (destruct (Hextra "boule_6" Hin) as [H|[H|H]]; [by left|..]);
      rewrite ?B5, ?BE, ?C5, ?CE in H; try discriminate H;
      rewrite ?elem_of_cons, elem_of_nil in H;
      repeat (destruct H as [H|H]; try discriminate H); done. }
  split; [intros [H5 H6]; by apply (Hsix Loto5Boules (or_introl eq_refl))|].
  split; [intros [H6 HE]; by apply (Hsix EuroMillion (or_intror eq_refl))|].
  unfold classify.
  change (LOTO_FORMATS.*2) with [Loto5Boules; Loto6Boules; EuroMillion].
  cbn [List.find].
  split; [by intros ->|]. split; [|by split].
  intros c. destruct (is_one Loto5Boules (inr header)) eqn:E5; [by intros [= <-]|].
  destruct (is_one Loto6Boules (inr header)) eqn:E6; [by intros [= <-]|].
  destruct (is_one EuroMillion (inr header)) eqn:EE; [by intros [= <-]|done].
Qed.

Lemma X10_header_classes_overlap_witness :
  classify header_5_and_euro = Some Loto5Boules.
Proof.
  apply (proj1 (proj2 (proj2 (X10_header_classes_overlap header_5_and_euro)))).
  reflexivity.
Defined.

(** ** Validity of a result *)

Section validity_facts.

Lemma remove_dups_length_le (l : list Z) : (length (remove_dups l) ≤ length l)%nat.
Proof.
  induction l as [|x l IH]; simpl; [done|].
  destruct (decide_rel elem_of x l); simpl; lia.
Qed.

Lemma remove_dups_length_NoDup (l : list Z) :
  length (remove_dups l) = length l ↔ NoDup l.
Proof.
  induction l as [|x l IH]; simpl.
  - split; [constructor|done].
  - destruct (decide_rel elem_of x l) as [Hin|Hin]; simpl.
    + pose proof (remove_dups_length_le l). split; [lia|].
      by intros [? _]%NoDup_cons.
    + rewrite NoDup_cons, <- IH. split; [intros [= ?]; by split|intros [_ ->]; done].
Qed.

Lemma size_list_to_set_remove_dups (l : list Z) :
  size (list_to_set l : gset Z) = length (remove_dups l).
Proof.
  rewrite <- (size_list_to_set (C:=gset Z) (remove_dups l))
    by apply NoDup_remove_dups.
  f_equal. apply set_eq. intros x.
  by rewrite !elem_of_list_to_set, elem_of_remove_dups.
Qed.

Lemma forallb_range (hi : Z) (l : list Z) :
  forallb (λ i, (0 <? i) && (i <=? hi)) l = true ↔ ∀ x, x ∈ l → 1 ≤ x ≤ hi.
Proof.
  rewrite forallb_forall. split.
  - intros H x Hx%list_elem_of_In. apply H, andb_prop in Hx. lia.
  - intros H x Hx%list_elem_of_In. apply H in Hx.
    apply andb_true_iff. lia.
Qed.

Lemma is_one_result_spec (cls : LotoFormat) (r : LotoResult) :
  is_one cls (inl r) = true ↔
  Z.of_nat (size (list_to_set (grid r) : gset Z)) = BOULES_NB cls ∧
  Z.of_nat (size (list_to_set (chance r) : gset Z)) = CHANCE_NB cls ∧
  (∀ x, x ∈ grid r → 1 ≤ x ≤ MAX cls) ∧
  (∀ x, x ∈ chance r → 1 ≤ x ≤ MAX_CHANCE cls).
Proof.
  unfold is_one.
  rewrite !andb_true_iff, !bool_decide_eq_true, !forallb_range,
    !size_list_to_set_remove_dups.
  tauto.
Qed.

End validity_facts.

(** X11. [is_one] on a result counts distinct numbers: it holds iff the set of
    main numbers has [BOULES_NB] elements, the set of bonus numbers has
    [CHANCE_NB] elements, and every number lies in its range. A valid
    result with exactly [BOULES_NB] main entries has no repeated main
    number, and validity does not depend on the order of the entries. *)
Theorem X11_is_one_result (cls : LotoFormat) (r : LotoResult) :
  (is_one cls (inl r) = true ↔
   Z.of_nat (size (list_to_set (grid r) : gset Z)) = BOULES_NB cls ∧
   Z.of_nat (size (list_to_set (chance r) : gset Z)) = CHANCE_NB cls ∧
   (∀ x, x ∈ grid r → 1 ≤ x ≤ MAX cls) ∧
   (∀ x, x ∈ chance r → 1 ≤ x ≤ MAX_CHANCE cls)) ∧
  (is_one cls (inl r) = true →
   Z.of_nat (length (grid r)) = BOULES_NB cls → NoDup (grid r)) ∧
  (∀ r', grid r ≡ₚ grid r' → chance r ≡ₚ chance r' →
         is_one cls (inl r') = is_one cls (inl r)).
Proof.
  split; [apply is_one_result_spec|]. split.
  - intros (Hg & _)%is_one_result_spec Hlen.
    apply remove_dups_length_NoDup.
    rewrite size_list_to_set_remove_dups in Hg. lia.
  - intros r' Pg Pc.
    assert (∀ l l' : list Z, l ≡ₚ l' →
              (list_to_set l : gset Z) = list_to_set l') as Hset.
    { intros l l' P. apply set_eq. intros x.
      by rewrite !elem_of_list_to_set, P. }
    apply eq_true_iff_eq. rewrite !is_one_result_spec.
    rewrite (Hset _ _ Pg), (Hset _ _ Pc).
    by setoid_rewrite Pg; setoid_rewrite Pc.
Qed.

Lemma X11_is_one_result_witness : NoDup (grid draw_12345_6).
Proof.
  apply (proj1 (proj2 (X11_is_one_result Loto5Boules draw_12345_6)));
    reflexivity.
Defined.

(** X12. No result is valid for two of the three classes. *)
Theorem X12_is_one_result_exclusive (c1 c2 : loto_class) (r : LotoResult) :
  is_one c1 (inl r) = true → is_one c2 (inl r) = true → c1 = c2.
Proof.
  intros (G1 & C1 & _)%is_one_result_spec (G2 & C2 & _)%is_one_result_spec.
  destruct c1, c2; simpl in *; try done; lia.
Qed.

Lemma X12_is_one_result_exclusive_witness : Loto5Boules = Loto5Boules.
Proof.
  apply (X12_is_one_result_exclusive Loto5Boules Loto5Boules draw_12345_6);
    reflexivity.
Defined.

(** ** Generated results *)

(** X13. Every result [generate] returns for one of the three classes is valid
    for that class. *)
Theorem X13_generate_valid (c : loto_class) (s : rng) :
  ∃ g s', generate c s = (Ok g, s') ∧ is_one c (inl g) = true.
Proof.
  destruct (generate_spec c s) as (g & s' & Hgen & Lg & Ng & Rg & Lc & Nc & Rc & _);
    [destruct c; simpl; lia..|].
  exists g, s'. split; [done|]. apply is_one_result_spec.
  rewrite !size_list_to_set by done. done.
Qed.

(** ** Results of a row *)

Section row_facts.

Variable strptime : string → string → result datetime.

Lemma traverse_Forall2 {A B} (f : A → result B) l ys :
  traverse f l = Ok ys ↔ Forall2 (λ x y, f x = Ok y) l ys.
Proof.
  revert ys. induction l as [|x l IH]; intros ys; simpl.
  - split; [intros [= <-]; constructor|by intros ->%Forall2_nil_inv_l].
  - split.
    + destruct (f x) as [y|] eqn:E; [|done].
      destruct (traverse f l) as [zs|]; [|done].
      intros [= <-]. constructor; [done|by apply IH].
    + intros (y & zs & Hy & Hzs & ->)%Forall2_cons_inv_l.
      apply IH in Hzs. by rewrite Hy, Hzs.
Qed.

Lemma second_seq_length line idxs seq :
  second_seq line idxs = Ok seq → (length seq ≤ length idxs)%nat.
Proof.
  revert seq. induction idxs as [|i idxs IH]; intros seq; cbn [second_seq].
  - by intros [= <-].
  - destruct (line !! second_format i) as [v|].
    + destruct (int_cell v) as [n|]; [|done]. cbn.
      destruct (second_seq line idxs) as [seq'|]; [|done]. cbn.
      intros [= <-]. specialize (IH seq' eq_refl). simpl. lia.
    + intros H. specialize (IH seq H). simpl. lia.
Qed.

Lemma Loto5Boules_extract_line_inv line res' out' :
  Loto5Boules_extract_line strptime line = (Ok res', out') →
  ∃ res seq,
    LotoFormat_extract_line strptime Loto5Boules line = (Ok res, out') ∧
    second_seq line (seqZ 1 5) = Ok seq ∧
    ((seq = [] ∧ res' = res) ∨
     (seq ≠ [] ∧ ∃ bonus,
        traverse (int_at line) (chance_keys Loto5Boules) = Ok bonus ∧
        res' = (res ++ [mkLotoResult seq bonus None])%list)).
Proof.
  unfold Loto5Boules_extract_line.
  destruct (LotoFormat_extract_line strptime Loto5Boules line) as [[res|e] out];
    [|done].
  rewrite bind_ok.
  change (seqZ 1 (BOULES_NB Loto5Boules)) with (seqZ 1 5).
  destruct (second_seq line (seqZ 1 5)) as [seq|e]; [|done].
  rewrite bind_lift_ok. destruct seq as [|n seq].
  - simpl. rewrite app_nil_r. intros [= <- <-]. exists res, []. auto.
  - destruct (traverse (int_at line) (chance_keys Loto5Boules)) as [bonus|e];
      [|done].
    rewrite bind_lift_ok. simpl. rewrite app_nil_r. intros [= <- <-].
    exists res, (n :: seq). split; [done|]. split; [done|].
    right. split; [done|]. by exists bonus.
Qed.

(** What the shared extraction returns: no result, or one dated result
    whose main and bonus numbers are the integers read at the keys of the
    class, in the order of the keys. *)
Lemma LotoFormat_extract_line_shape cls line res out :
  LotoFormat_extract_line strptime cls line = (Ok res, out) →
  ∃ grid bonus,
    traverse (int_at line) (boule_keys cls) = Ok grid ∧
    traverse (int_at line) (chance_keys cls) = Ok bonus ∧
    (res = [] ∨ ∃ dt, res = [mkLotoResult grid bonus (Some dt)]).
Proof.
  intros (grid & bonus & d & Hg & Hb & _ & Htry)%LotoFormat_extract_line_inv.
  exists grid, bonus. split; [done|]. split; [done|].
  destruct (try_formats_inv _ _ _ _ _ _ _ Htry) as [[= ->]|[dt [= ->]]]; eauto.
Qed.

(** X15. Every result extracted from a row carries the bonus numbers of the
    row. A row gives at most two results, at most one outside the
    five-ball class. A dated result holds the [BOULES_NB] main numbers read
    at the keys of the class; an undated one only comes from the five-ball
    class and holds the second-draw numbers, between one and five of
    them. *)
Theorem X15_extract_line_results (c : loto_class) (line : row_dict) res out :
  extract_line strptime c line = (Ok res, out) →
  ∃ bonus,
    traverse (int_at line) (chance_keys c) = Ok bonus ∧
    (length res ≤ 2)%nat ∧
    (c ≠ Loto5Boules → (length res ≤ 1)%nat) ∧
    ∀ r, r ∈ res →
      chance r = bonus ∧
      Z.of_nat (length (chance r)) = CHANCE_NB c ∧
      (is_Some (date r) →
       traverse (int_at line) (boule_keys c) = Ok (grid r) ∧
       Z.of_nat (length (grid r)) = BOULES_NB c) ∧
      (date r = None →
       c = Loto5Boules ∧ second_seq line (seqZ 1 5) = Ok (grid r) ∧
       (1 ≤ length (grid r) ≤ 5)%nat).
Proof.
  assert (∀ cls : loto_class, ∀ res out,
    LotoFormat_extract_line strptime cls line = (Ok res, out) →
    ∃ bonus,
      traverse (int_at line) (chance_keys cls) = Ok bonus ∧
      Z.of_nat (length bonus) = CHANCE_NB cls ∧
      (length res ≤ 1)%nat ∧
      ∀ r, r ∈ res →
        chance r = bonus ∧ is_Some (date r) ∧
        traverse (int_at line) (boule_keys cls) = Ok (grid r) ∧
        Z.of_nat (length (grid r)) = BOULES_NB cls) as Hbase.
  { intros cls res0 out0 (grid & bonus & Hg & Hb & Hres)%LotoFormat_extract_line_shape.
    exists bonus. split; [done|].
    pose proof (traverse_length _ _ _ Hg) as Lg.
    pose proof (traverse_length _ _ _ Hb) as Lb.
    pose proof (boule_keys_length cls) as Kb.
    pose proof (chance_keys_length cls) as Kc.
    assert (0 ≤ BOULES_NB cls ∧ 0 ≤ CHANCE_NB cls) as [? ?]
      by (destruct cls; simpl; lia).
    split; [lia|].
    destruct Hres as [->|[dt ->]].
    - split; [simpl; lia|]. by intros r ?%elem_of_nil.
    - split; [simpl; lia|]. intros r ->%list_elem_of_singleton. simpl.
      split; [done|]. split; [by eexists|]. split; [done|lia]. }
  destruct c.
  - intros (res0 & seq & Hres0 & Hseq & Hcase)%Loto5Boules_extract_line_inv.
    destruct (Hbase Loto5Boules _ _ Hres0) as (bonus & Hb & Lb & Hlen & Hr).
    exists bonus. split; [done|].
    destruct Hcase as [[-> ->]|(Hne & bonus' & Hb' & ->)].
    + split; [lia|]. split; [done|].
      intros r Hin. destruct (Hr r Hin) as (Hc & Hd & Hg & Lg).
      split; [done|]. split; [by rewrite Hc|]. split; [done|].
      intros Hnone. rewrite Hnone in Hd. by destruct Hd.
    + assert (bonus' = bonus) as -> by congruence.
      split; [rewrite length_app; simpl; lia|]. split; [done|].
      intros r [Hin| ->%list_elem_of_singleton]%elem_of_app.
      * destruct (Hr r Hin) as (Hc & Hd & Hg & Lg).
        split; [done|]. split; [by rewrite Hc|]. split; [done|].
        intros Hnone. rewrite Hnone in Hd. by destruct Hd.
      * simpl. split; [done|]. split; [done|].
        split; [by intros [? ?]|]. intros _. split; [done|]. split; [done|].
        pose proof (second_seq_length _ _ _ Hseq) as L.
        rewrite length_seqZ in L. destruct seq; [done|]. simpl in *. lia.
  - cbn [extract_line]. intros Hres.
    destruct (Hbase Loto6Boules _ _ Hres) as (bonus & Hb & Lb & Hlen & Hr).
    exists bonus. split; [done|]. split; [lia|]. split; [done|].
    intros r Hin. destruct (Hr r Hin) as (Hc & Hd & Hg & Lg).
    split; [done|]. split; [by rewrite Hc|]. split; [done|].
    intros Hnone. rewrite Hnone in Hd. by destruct Hd.
  - cbn [extract_line]. intros Hres.
    destruct (Hbase EuroMillion _ _ Hres) as (bonus & Hb & Lb & Hlen & Hr).
    exists bonus. split; [done|]. split; [lia|]. split; [done|].
    intros r Hin. destruct (Hr r Hin) as (Hc & Hd & Hg & Lg).
    split; [done|]. split; [by rewrite Hc|]. split; [done|].
    intros Hnone. rewrite Hnone in Hd. by destruct Hd.
Qed.

(** X16. The date patterns are tried in the order of [find_date_format]: the
    date of the result is the one read with the first pattern that
    succeeds, and every pattern that failed before it is reported by a
    warning. *)
Theorem X16_first_matching_pattern (cls : LotoFormat) (line : row_dict)
    grid bonus d pre fmt post dt :
  traverse (int_at line) (boule_keys cls) = Ok grid →
  traverse (int_at line) (chance_keys cls) = Ok bonus →
  line !! DATE_KEY cls = Some (Some d) →
  find_date_format d = (pre ++ fmt :: post)%list →
  (∀ f, f ∈ pre → ¬ returns (strptime d f)) →
  strptime d fmt = Ok dt →
  LotoFormat_extract_line strptime cls line
  = (Ok [mkLotoResult grid bonus (Some dt)], map (WarnDate d) pre).
Proof.
  intros Hg Hb Hd Hfmts Hpre Hfmt.
  rewrite (LotoFormat_extract_line_numbers _ _ _ _ _ _ Hg Hb Hd), Hfmts.
  clear Hfmts. induction pre as [|f pre IH]; cbn [try_formats app].
  - by rewrite Hfmt.
  - destruct (strptime d f) as [dt'|e] eqn:E.
    + destruct (Hpre f); [apply list_elem_of_here|]. rewrite E. by exists dt'.
    + rewrite bind_emit, IH; [done|].
      intros f' Hf'. apply Hpre. by apply list_elem_of_further.
Qed.

(** X17. A row that lacks a required key, or holds there a missing cell or a
    text that is not an integer, makes [extract_line] raise for every
    class, before any warning; so does a row without a date cell. *)
Theorem X17_extract_line_raises (c : loto_class) (line : row_dict) :
  ((∃ k, k ∈ (boule_keys c ++ chance_keys c)%list ∧ ¬ returns (int_at line k)) →
   ∃ e, extract_line strptime c line = (Raise e, [])) ∧
  (returns (traverse (int_at line) (boule_keys c)) →
   returns (traverse (int_at line) (chance_keys c)) →
   (line !! DATE_KEY c = None →
    extract_line strptime c line = (Raise KeyError, [])) ∧
   (line !! DATE_KEY c = Some None →
    extract_line strptime c line = (Raise TypeError, []))).
Proof.
  assert (∀ e, LotoFormat_extract_line strptime c line = (Raise e, []) →
               extract_line strptime c line = (Raise e, [])) as Hover.
  { intros e H. destruct c; [|done..].
    cbn [extract_line]. unfold Loto5Boules_extract_line. by rewrite H. }
  split.
  - intros (k & Hk & Hbad).
    assert (∃ e, LotoFormat_extract_line strptime c line = (Raise e, []))
      as [e He]; [|exists e; by apply Hover].
    unfold LotoFormat_extract_line.
    destruct (traverse (int_at line) (boule_keys c)) as [grid|e] eqn:Eg;
      [|by exists e].
    rewrite bind_lift_ok.
    apply elem_of_app in Hk as [Hk|Hk].
    + destruct (traverse_raises (int_at line) (boule_keys c)) as [e He];
        [by exists k|congruence].
    + destruct (traverse_raises (int_at line) (chance_keys c)) as [e ->];
        [by exists k|]. by exists e.
  - intros [grid Hg] [bonus Hb]. split; intros Hd; apply Hover;
      unfold LotoFormat_extract_line, getitem;
      by rewrite Hg, bind_lift_ok, Hb, bind_lift_ok, Hd.
Qed.

(** X18. In the five-ball class a second-draw cell that is present but is not
    an integer (an empty cell, the filler of a short row) makes
    [extract_line] raise although the primary draw of the row was read. *)
Theorem X18_second_draw_bad_cell (line : row_dict) res out :
  LotoFormat_extract_line strptime Loto5Boules line = (Ok res, out) →
  (∃ i v, 1 ≤ i ≤ 5 ∧ line !! second_format i = Some v ∧ ¬ returns (int_cell v)) →
  ∃ e, extract_line strptime Loto5Boules line = (Raise e, out).
Proof.
  intros Hres (i & v & Hi & Hv & Hbad).
  destruct (second_seq_raises line (seqZ 1 (BOULES_NB Loto5Boules))) as [e He].
  { exists i, v. split; [by apply elem_of_seqZ_1_5|done]. }
  exists e. cbn [extract_line]. unfold Loto5Boules_extract_line.
  rewrite Hres, bind_ok, He. simpl. by rewrite app_nil_r.
Qed.

End row_facts.

Lemma X15_extract_line_results_witness :
  ∃ bonus,
    traverse (int_at line_second_tirage) (chance_keys Loto5Boules) = Ok bonus ∧
    ∀ r, r ∈ [mkLotoResult [1; 2; 3; 4; 5] [6] (Some (mkDate 2020 1 1));
              mkLotoResult [11; 12; 13; 14; 15] [6] None] →
         chance r = bonus.
Proof.
  destruct (X15_extract_line_results fixed_width_strptime Loto5Boules
              line_second_tirage
              [mkLotoResult [1; 2; 3; 4; 5] [6] (Some (mkDate 2020 1 1));
               mkLotoResult [11; 12; 13; 14; 15] [6] None] [])
    as (bonus & Hb & _ & _ & Hr).
  - vm_compute. reflexivity.
  - exists bonus. split; [done|]. intros r Hin. by apply Hr.
Defined.

Lemma X16_first_matching_pattern_witness :
  LotoFormat_extract_line fixed_width_strptime Loto5Boules
    (dict_row header_5_boules row_short_year)
  = (Ok [mkLotoResult [7; 8; 9; 10; 11] [3] (Some (mkDate 2020 1 4))],
     [WarnDate "04/01/20" "%d/%m/%Y"]).
Proof.
  apply (X16_first_matching_pattern fixed_width_strptime Loto5Boules
           (dict_row header_5_boules row_short_year)
           [7; 8; 9; 10; 11] [3] "04/01/20" ["%d/%m/%Y"] "%d/%m/%y" ["%Y%m%d"]
           (mkDate 2020 1 4)).
  - vm_compute. reflexivity.
  - vm_compute. reflexivity.
  - vm_compute. reflexivity.
  - reflexivity.
  - intros f ->%list_elem_of_singleton [dt Hdt]. vm_compute in Hdt.
    discriminate Hdt.
  - vm_compute. reflexivity.
Defined.

Lemma X17_extract_line_raises_witness :
  ∃ e, extract_line fixed_width_strptime Loto5Boules
         (dict_row header_5_boules row_bad_number) = (Raise e, []).
Proof.
  apply (proj1 (X17_extract_line_raises fixed_width_strptime Loto5Boules
                  (dict_row header_5_boules row_bad_number))).
  exists "boule_1". split.
  - vm_compute. apply list_elem_of_here.
  - intros [n Hn]. vm_compute in Hn. discriminate Hn.
Defined.

Lemma X18_second_draw_bad_cell_witness :
  ∃ e, extract_line fixed_width_strptime Loto5Boules
         (dict_row header_second_tirage row_second_tirage_blank)
       = (Raise e, []).
Proof.
  apply (X18_second_draw_bad_cell fixed_width_strptime
           (dict_row header_second_tirage row_second_tirage_blank)
           [mkLotoResult [1; 2; 3; 4; 5] [6] (Some (mkDate 2020 1 1))] []).
  - vm_compute. reflexivity.
  - exists 2, (Some ""). split; [lia|]. split; [vm_compute; reflexivity|].
    intros [n Hn]. vm_compute in Hn. discriminate Hn.
Defined.

(** ** Results of a file and of a run *)

Section file_facts.

Variable strptime : string → string → result datetime.

Lemma iter_rows_all c h rest ress :
  Forall2 (λ rec res, ∃ row, rec = Cells row ∧ row ≠ [] ∧
             (extract_line strptime c (dict_row h row)).1 = Ok res) rest ress →
  (iter_rows strptime c h rest).1 = Ok (concat ress).
Proof.
  induction 1 as [|rec res rest ress (row & -> & Hrow & Hres) _ IH]; [done|].
  rewrite iter_rows_cons_fst, Hres, IH by done. done.
Qed.

(** X19. When every row of a claimed file is extracted, the file yields the
    results of its rows, in the order of the rows. *)
Theorem X19_read_loto_file_all_rows (fs : disk) (p : Path) (c : loto_class)
    (h : list string) (rest : list record_read) (ress : list (list LotoResult)) :
  fs !! path_name p = Some (Cells h :: rest) → suffix p = ".csv" →
  classify h = Some c →
  Forall2 (λ rec res, ∃ row, rec = Cells row ∧ row ≠ [] ∧
             (extract_line strptime c (dict_row h row)).1 = Ok res) rest ress →
  (read_loto_file strptime fs p).1 = Ok (concat ress).
Proof.
  intros Hfs Hsuf Hcls Hrows.
  rewrite (read_loto_file_opened_fst _ _ _ _ Hfs Hsuf).
  rewrite (read_records_classified _ _ _ _ _ Hcls).
  by rewrite (iter_rows_all _ _ _ _ Hrows).
Qed.

Lemma read_loto_file_raises_iff (fs : disk) (p : Path) (e : exn) :
  ((read_loto_file strptime fs p).1 = Raise e ↔
   (fs !! path_name p = None ∧ e = OSError) ∨
   (is_Some (fs !! path_name p) ∧ suffix p ≠ ".csv" ∧ e = KeyError)) ∧
  ((read_loto_file strptime fs p).1 = Raise e →
   (read_loto_file strptime fs p).2 = []).
Proof.
  destruct (fs !! path_name p) as [records|] eqn:Hfs.
  - destruct (decide (suffix p = ".csv")) as [Hsuf|Hsuf].
    + rewrite (read_loto_file_opened_fst _ _ _ _ Hfs Hsuf).
      split; [|by destruct (read_records strptime p records).1].
      split.
      * by destruct (read_records strptime p records).1.
      * intros [[? _]|(_ & ? & _)]; done.
    + unfold read_loto_file. rewrite Hfs.
      unfold SUPPORTED_FORMATS. rewrite lookup_singleton_ne by done.
      split; [|done]. split.
      * intros [= <-]. right. split; [by eexists|done].
      * intros [[? _]|(_ & _ & ->)]; done.
  - unfold read_loto_file. rewrite Hfs. split; [|done]. split.
    + intros [= <-]. by left.
    + intros [[_ ->]|([? ?] & _)]; done.
Qed.

(** X20. [read_loto_file] raises in two cases only, each before anything is
    reported: the file cannot be opened ([OSError]), or it opens and its
    suffix is not a key of [SUPPORTED_FORMATS] ([KeyError]). *)
Theorem X20_read_loto_file_raises (fs : disk) (p : Path) (e : exn) :
  ((read_loto_file strptime fs p).1 = Raise e ↔
   (fs !! path_name p = None ∧ e = OSError) ∨
   (is_Some (fs !! path_name p) ∧ suffix p ≠ ".csv" ∧ e = KeyError)) ∧
  ((read_loto_file strptime fs p).1 = Raise e →
   (read_loto_file strptime fs p).2 = []).
Proof. apply read_loto_file_raises_iff. Qed.

Lemma main_results_cons_ok fs f files lines out :
  read_loto_file strptime fs f = (Ok lines, out) →
  main_results strptime fs (f :: files)
  = (match (main_results strptime fs files).1 with
     | Ok more => Ok (lines ++ more)%list
     | Raise e => Raise e
     end,
     (out ++ (main_results strptime fs files).2)%list).
Proof.
  intros Hf. cbn [main_results]. rewrite Hf, bind_ok.
  destruct (main_results strptime fs files) as [[more|e] out']; [|done].
  rewrite bind_ok. simpl. by rewrite app_nil_r.
Qed.

(** X21. A run over several files yields the results of the files in order.
    The first file on which [read_loto_file] raises ends the run with that
    exception: what was reported for the earlier files is kept, and no
    later file is read. *)
Theorem X21_main_results_files (fs : disk) :
  (∀ files ress,
     Forall2 (λ f res, (read_loto_file strptime fs f).1 = Ok res) files ress →
     (main_results strptime fs files).1 = Ok (concat ress)) ∧
  (∀ pre f post e,
     Forall (λ g, returns (read_loto_file strptime fs g).1) pre →
     (read_loto_file strptime fs f).1 = Raise e →
     main_results strptime fs (pre ++ f :: post)
     = (Raise e, (main_results strptime fs pre).2)).
Proof.
  split.
  - induction 1 as [|f res files ress Hf _ IH]; [done|].
    destruct (read_loto_file strptime fs f) as [r out] eqn:E.
    simpl in Hf. subst r.
    by rewrite (main_results_cons_ok _ _ _ _ _ E), IH.
  - intros pre f post e Hpre Hf.
    induction Hpre as [|g pre [lines Hg] _ IH].
    + cbn [app main_results].
      pose proof (proj2 (read_loto_file_raises_iff fs f e) Hf) as Hout.
      destruct (read_loto_file strptime fs f) as [r out].
      simpl in *. by subst.
    + destruct (read_loto_file strptime fs g) as [r out] eqn:E.
      simpl in Hg. subst r.
      change ((g :: pre) ++ f :: post)%list with (g :: (pre ++ f :: post))%list.
      rewrite !(main_results_cons_ok _ _ _ _ _ E), IH. done.
Qed.

End file_facts.

Lemma X19_read_loto_file_all_rows_witness :
  (read_loto_file fixed_width_strptime disk_good loto_csv).1
  = Ok (concat [[mkLotoResult [1; 2; 3; 4; 5] [6] (Some (mkDate 2020 1 1))];
                [mkLotoResult [7; 8; 9; 10; 11] [3] (Some (mkDate 2020 1 4))]]).
Proof.
  apply (X19_read_loto_file_all_rows fixed_width_strptime disk_good loto_csv
           Loto5Boules header_5_boules [Cells row_ok; Cells row_other]).
  - vm_compute. reflexivity.
  - reflexivity.
  - vm_compute. reflexivity.
  - repeat (constructor;
            [eexists; split; [reflexivity|split; [discriminate|vm_compute; reflexivity]]|]).
    constructor.
Defined.

Lemma X20_read_loto_file_raises_witness :
  (read_loto_file fixed_width_strptime disk_two_files loto_txt).2 = [].
Proof.
  apply (proj2 (X20_read_loto_file_raises fixed_width_strptime disk_two_files
                  loto_txt KeyError)).
  vm_compute. reflexivity.
Defined.

Lemma X21_main_results_files_witness :
  main_results fixed_width_strptime disk_bad_date
    ([loto_csv] ++ missing_csv :: [loto_csv])
  = (Raise OSError, (main_results fixed_width_strptime disk_bad_date [loto_csv]).2).
Proof.
  apply (proj2 (X21_main_results_files fixed_width_strptime disk_bad_date)).
  - constructor; [|constructor]. eexists. vm_compute. reflexivity.
  - vm_compute. reflexivity.
Defined.

(** ** The generation loop *)

Section generation_facts.

Lemma generate_class_returns (c : loto_class) (s : rng) :
  ∃ g s', generate c s = (Ok g, s') ∧ is_one c (inl g) = true.
Proof.
  destruct (generate_spec c s) as (g & s' & Hgen & Lg & Ng & Rg & Lc & Nc & Rc & _);
    [destruct c; simpl; lia..|].
  exists g, s'. split; [done|]. apply is_one_result_spec.
  rewrite !size_list_to_set by done. done.
Qed.

Lemma result_in_empty_grid x results :
  (∃ h, h ∈ results ∧ grid h = []) → result_in x results = true.
Proof.
  intros (h & Hin & Hh). unfold result_in. apply existsb_exists.
  exists h. split; [by apply list_elem_of_In|].
  unfold eqb_result. rewrite LotoResult_eq_sym.
  by rewrite (LotoResult_eq_empty_grid h x Hh).
Qed.

End generation_facts.

(** X22. With an empty history the loop returns the first candidate drawn. *)
Theorem X22_generate_tirage_empty_history (c : loto_class) (s : rng) (fuel : nat) :
  ∃ g s', generate c s = (Ok g, s') ∧
          generate_tirage (S fuel) [] c s = Some (Ok g, s').
Proof.
  destruct (generate_class_returns c s) as (g & s' & Hgen & _).
  exists g, s'. split; [done|]. by apply generate_tirage_first.
Qed.

Lemma generate_tirage_valid_unseen (fuel : nat) (results : list LotoResult)
    (c : loto_class) (s s' : rng) (r : result LotoResult) :
  generate_tirage fuel results c s = Some (r, s') →
  ∃ g, r = Ok g ∧ is_one c (inl g) = true ∧ result_in g results = false.
Proof.
  revert s. induction fuel as [|fuel IH]; intros s; [done|].
  cbn [generate_tirage].
  destruct (generate_class_returns c s) as (g & s1 & -> & Hvalid).
  destruct (result_in g results) eqn:Hin; [apply IH|].
  intros [= <- <-]. by exists g.
Qed.

(** X23. Whatever the loop returns for one of the three classes is a result
    that is valid for the class and is not in the history; the loop never
    ends on an exception. *)
Theorem X23_generate_tirage_valid_unseen (fuel : nat) (results : list LotoResult)
    (c : loto_class) (s s' : rng) (r : result LotoResult) :
  generate_tirage fuel results c s = Some (r, s') →
  ∃ g, r = Ok g ∧ is_one c (inl g) = true ∧ result_in g results = false.
Proof. apply generate_tirage_valid_unseen. Qed.

Lemma X23_generate_tirage_valid_unseen_witness :
  ∃ g, Ok (mkLotoResult [7; 8; 9; 10; 11] [2] None) = Ok g ∧
       is_one Loto5Boules (inl g) = true ∧ result_in g history_12345 = false.
Proof.
  eapply (X23_generate_tirage_valid_unseen 3 history_12345 Loto5Boules counting).
  vm_compute. reflexivity.
Defined.

(** X24. A history that holds a result without main numbers blocks the loop:
    every candidate equals that entry, so for the three classes the loop
    never returns, however long it runs. *)
Theorem X24_generate_tirage_blocked (results : list LotoResult) (c : loto_class)
    (fuel : nat) (s : rng) :
  (∃ h, h ∈ results ∧ grid h = []) →
  generate_tirage fuel results c s = None.
Proof.
  intros Hblock. revert s. induction fuel as [|fuel IH]; intros s; [done|].
  cbn [generate_tirage].
  destruct (generate_class_returns c s) as (g & s1 & -> & _).
  by rewrite (result_in_empty_grid g results Hblock).
Qed.

Lemma X24_generate_tirage_blocked_witness :
  generate_tirage 100 history_blocked EuroMillion counting = None.
Proof.
  apply (X24_generate_tirage_blocked history_blocked EuroMillion 100 counting).
  exists no_numbers. split; [|reflexivity].
  apply list_elem_of_further, list_elem_of_here.
Defined.

(** ** The command *)

Section command_facts.

Variable strptime : string → string → result datetime.

Lemma supported_csv (f : Path) : supported f = true ↔ suffix f = ".csv".
Proof.
  unfold supported, SUPPORTED_FORMATS. rewrite bool_decide_eq_true.
  destruct (decide (suffix f = ".csv")) as [->|Hne].
  - by rewrite lookup_singleton_eq.
  - rewrite lookup_singleton_ne by done. split; [by intros [? ?]|done].
Qed.

Lemma all_supported (file : list Path) :
  existsb (λ f, negb (supported f)) file = false ↔
  ∀ f, f ∈ file → suffix f = ".csv".
Proof.
  split.
  - intros H f Hf. apply supported_csv.
    destruct (supported f) eqn:E; [done|].
    assert (existsb (λ f, negb (supported f)) file = true) as H'; [|congruence].
    apply existsb_exists. exists f. split; [by apply list_elem_of_In|by rewrite E].
  - intros H. destruct (existsb _ file) eqn:E; [|done].
    apply existsb_exists in E as (f & Hf%list_elem_of_In & Hneg).
    apply H, supported_csv in Hf. by rewrite Hf in Hneg.
Qed.

Lemma filter_supported (listing : list Path) :
  ∀ f, f ∈ List.filter supported listing → suffix f = ".csv".
Proof.
  intros f [_ Hf]%list_elem_of_In%filter_In. by apply supported_csv.
Qed.

(** The run once the options have passed the checks, in file mode. *)
Lemma main_file_mode fs fuel file loto_format exist s :
  file ≠ [] → (∀ f, f ∈ file → suffix f = ".csv") →
  main strptime fs fuel None file loto_format exist s
  = match main_results strptime fs file with
    | (Raise e, out) => Some (Crashed e, map Reported out, s)
    | (Ok results, out) =>
        match lookup_format loto_format with
        | None => Some (Crashed KeyError, map Reported out, s)
        | Some loto_cls =>
            match exist with
            | Some text =>
                match from_string text with
                | Raise _ => Some (Rejected BadArgumentUsage, map Reported out, s)
                | Ok exist_result =>
                    Some (Finished,
                          (map Reported out
                           ++ [EchoValid loto_cls (is_one loto_cls (inl exist_result));
                               EchoDrawn (LotoResult_str exist_result)
                                         (result_in exist_result results)])%list,
                          s)
                end
            | None =>
                match generate_tirage fuel results loto_cls s with
                | None => None
                | Some (Ok gen, s') =>
                    Some (Finished,
                          (map Reported out
                           ++ [PrintGeneration loto_cls;
                               EchoTirage (LotoResult_str gen)])%list,
                          s')
                | Some (Raise e, s') =>
                    Some (Crashed e,
                          (map Reported out ++ [PrintGeneration loto_cls])%list, s')
                end
            end
        end
    end.
Proof.
  intros Hfile Hsup. unfold main.
  rewrite (bool_decide_eq_false_2 (is_Some None)) by (by intros [? ?]).
  rewrite (bool_decide_eq_true_2 (file ≠ [])) by done.
  cbn [andb orb negb]. rewrite (proj2 (all_supported file) Hsup).
  reflexivity.
Qed.

(** X25. The checks of the options come before everything else: giving both a
    directory and files, or neither, ends the run with [UsageError], and a
    file whose suffix is not supported ends it with [BadParameter]; in both
    cases no file is read and nothing is reported or drawn. *)
Theorem X25_main_option_checks (fs : disk) (fuel : nat)
    (repository : option (list Path)) (file : list Path)
    (loto_format : string) (exist : option string) (s : rng) :
  ((is_Some repository ∧ file ≠ []) ∨ (repository = None ∧ file = []) →
   main strptime fs fuel repository file loto_format exist s
   = Some (Rejected UsageError, [], s)) ∧
  (repository = None → (∃ f, f ∈ file ∧ suffix f ≠ ".csv") →
   main strptime fs fuel repository file loto_format exist s
   = Some (Rejected BadParameter, [], s)).
Proof.
  split.
  - intros [[Hr Hf]|[-> ->]]; unfold main.
    + by rewrite (bool_decide_eq_true_2 _ Hr), (bool_decide_eq_true_2 _ Hf).
    + rewrite (bool_decide_eq_false_2 (is_Some None)) by (by intros [? ?]).
      by rewrite (bool_decide_eq_false_2 ([] ≠ [])) by (by intros H).
  - intros -> (f & Hf & Hsuf). unfold main.
    rewrite (bool_decide_eq_false_2 (is_Some None)) by (by intros [? ?]).
    rewrite (bool_decide_eq_true_2 (file ≠ []))
      by (intros ->; by apply elem_of_nil in Hf).
    cbn [andb orb negb].
    assert (existsb (λ f, negb (supported f)) file = true) as ->; [|done].
    apply existsb_exists. exists f. split; [by apply list_elem_of_In|].
    destruct (supported f) eqn:E; [|done]. by apply supported_csv in E.
Qed.

(** X26. The lookup mode always ends, whatever the bound on the generation
    loop, and leaves the random source untouched. The files are loaded
    before the lookup text is parsed: a file that cannot be opened crashes
    the run, and a malformed text is rejected only after the messages of
    the loading have been reported. A well-formed text is reported as
    valid or not for the chosen class and as drawn or not in the loaded
    history. *)
Theorem X26_main_lookup (fs : disk) (fuel : nat) (file : list Path)
    (loto_format : string) (cls : loto_class) (text : string) (s : rng) :
  file ≠ [] → (∀ f, f ∈ file → suffix f = ".csv") →
  lookup_format loto_format = Some cls →
  (∃ e log, main strptime fs fuel None file loto_format (Some text) s
            = Some (e, log, s)) ∧
  (∀ e out, main_results strptime fs file = (Raise e, out) →
     main strptime fs fuel None file loto_format (Some text) s
     = Some (Crashed e, map Reported out, s)) ∧
  (∀ results out, main_results strptime fs file = (Ok results, out) →
     (¬ returns (from_string text) →
      main strptime fs fuel None file loto_format (Some text) s
      = Some (Rejected BadArgumentUsage, map Reported out, s)) ∧
     (∀ x, from_string text = Ok x →
      main strptime fs fuel None file loto_format (Some text) s
      = Some (Finished,
              (map Reported out
               ++ [EchoValid cls (is_one cls (inl x));
                   EchoDrawn (LotoResult_str x) (result_in x results)])%list,
              s))).
Proof.
  intros Hfile Hsup Hfmt.
  rewrite (main_file_mode _ _ _ _ _ _ Hfile Hsup), Hfmt.
  destruct (main_results strptime fs file) as [[results|e] out].
  - split; [destruct (from_string text); by eexists _, _|].
    split; [done|]. intros ? ? [= <- <-]. split.
    + intros Hbad. destruct (from_string text) as [x|]; [|done].
      destruct Hbad. by exists x.
    + by intros x ->.
  - split; [by eexists _, _|]. split; [by intros ? ? [= <- <-]|done].
Qed.

(** X27. In generation mode a run that ends normally has loaded every file and
    echoes, last, the text of a result that is valid for the chosen class
    and is not in the loaded history; for the three classes the generation
    itself never raises. *)
Theorem X27_main_generation (fs : disk) (fuel : nat) (file : list Path)
    (loto_format : string) (s s' : rng) (e : ending) (log : list main_event) :
  file ≠ [] → (∀ f, f ∈ file → suffix f = ".csv") →
  main strptime fs fuel None file loto_format None s = Some (e, log, s') →
  (e = Finished ∧
   ∃ cls results out g,
     lookup_format loto_format = Some cls ∧
     main_results strptime fs file = (Ok results, out) ∧
     log = (map Reported out
            ++ [PrintGeneration cls; EchoTirage (LotoResult_str g)])%list ∧
     is_one cls (inl g) = true ∧ result_in g results = false) ∨
  (s' = s ∧
   ((∃ x out, e = Crashed x ∧ main_results strptime fs file = (Raise x, out)) ∨
    (e = Crashed KeyError ∧ lookup_format loto_format = None))).
Proof.
  intros Hfile Hsup. rewrite (main_file_mode _ _ _ _ _ _ Hfile Hsup).
  destruct (main_results strptime fs file) as [[results|x] out].
  - destruct (lookup_format loto_format) as [cls|].
    + destruct (generate_tirage fuel results cls s) as [[r s1]|] eqn:Hgen; [|done].
      destruct (generate_tirage_valid_unseen _ _ _ _ _ _ Hgen)
        as (g & -> & Hvalid & Hunseen).
      intros [= <- <- <-]. left. split; [done|].
      by exists cls, results, out, g.
    + intros [= <- <- <-]. right. split; [done|]. by right.
  - intros [= <- <- <-]. right. split; [done|]. left. by exists x, out.
Qed.

(** X28. In directory mode the entries with an unsupported suffix are skipped
    without a message and the run is the run in file mode over the other
    entries; when none is left, a warning is issued and the run goes on
    with an empty history, so that generation returns the first candidate
    drawn. *)
Theorem X28_main_repository (fs : disk) (fuel : nat) (listing : list Path)
    (loto_format : string) (exist : option string) (s : rng) :
  (List.filter supported listing ≠ [] →
   main strptime fs fuel (Some listing) [] loto_format exist s
   = main strptime fs fuel None (List.filter supported listing)
       loto_format exist s) ∧
  (List.filter supported listing = [] →
   ∀ cls, lookup_format loto_format = Some cls →
   ∃ g s', generate cls s = (Ok g, s') ∧
     main strptime fs (S fuel) (Some listing) [] loto_format None s
     = Some (Finished,
             [WarnNoFile; PrintGeneration cls; EchoTirage (LotoResult_str g)],
             s')).
Proof.
  split.
  - intros Hne.
    rewrite (main_file_mode _ _ _ _ _ _ Hne (filter_supported listing)).
    unfold main.
    rewrite (bool_decide_eq_true_2 (is_Some (Some listing))) by by eexists.
    rewrite (bool_decide_eq_false_2 ([] ≠ [])) by (by intros H).
    cbn [andb orb negb existsb].
    destruct (List.filter supported listing) as [|f files] eqn:E; [done|].
    reflexivity.
  - intros Hnone cls Hfmt.
    destruct (generate_class_returns cls s) as (g & s' & Hgen & _).
    exists g, s'. split; [done|]. unfold main.
    rewrite (bool_decide_eq_true_2 (is_Some (Some listing))) by by eexists.
    rewrite (bool_decide_eq_false_2 ([] ≠ [])) by (by intros H).
    cbn [andb orb negb existsb]. rewrite Hnone.
    cbn [main_results]. change (mret [] : Py (list LotoResult)) with
      ((Ok [], []) : Py (list LotoResult)).
    cbn [map app]. rewrite Hfmt.
    by rewrite (generate_tirage_first fuel [] cls s g s' Hgen eq_refl).
Qed.

End command_facts.

Lemma X25_main_option_checks_witness :
  main fixed_width_strptime disk_two_files 1 None [loto_csv; loto_txt]
    "5_boules" None counting
  = Some (Rejected BadParameter, [], counting).
Proof.
  apply (proj2 (X25_main_option_checks fixed_width_strptime disk_two_files 1 None
                  [loto_csv; loto_txt] "5_boules" None counting)).
  - reflexivity.
  - exists loto_txt. split; [|discriminate].
    apply list_elem_of_further, list_elem_of_here.
Defined.

Lemma X26_main_lookup_witness :
  ∃ e log,
    main fixed_width_strptime disk_good 0 None [loto_csv] "5_boules"
      (Some "1-2-3-4-5+6") counting
    = Some (e, log, counting).
Proof.
  apply (proj1 (X26_main_lookup fixed_width_strptime disk_good 0 [loto_csv]
                  "5_boules" Loto5Boules "1-2-3-4-5+6" counting
                  ltac:(discriminate)
                  ltac:(by intros f ->%list_elem_of_singleton)
                  ltac:(vm_compute; reflexivity))).
Defined.

Lemma X27_main_generation_witness :
  (Finished = Finished ∧
   ∃ cls results out g,
     lookup_format "5_boules" = Some cls ∧
     main_results fixed_width_strptime disk_good [loto_csv] = (Ok results, out) ∧
     [PrintGeneration Loto5Boules; EchoTirage "tirage=13-14-15-16-17+8"]
     = (map Reported out
        ++ [PrintGeneration cls; EchoTirage (LotoResult_str g)])%list ∧
     is_one cls (inl g) = true ∧ result_in g results = false) ∨
  ((λ i, (18 + i)%nat) = counting ∧
   ((∃ x out, Finished = Crashed x ∧
              main_results fixed_width_strptime disk_good [loto_csv]
              = (Raise x, out)) ∨
    (Finished = Crashed KeyError ∧ lookup_format "5_boules" = None))).
Proof.
  apply (X27_main_generation fixed_width_strptime disk_good 3 [loto_csv]
           "5_boules" counting (λ i, (18 + i)%nat) Finished
           [PrintGeneration Loto5Boules; EchoTirage "tirage=13-14-15-16-17+8"]).
  - discriminate.
  - by intros f ->%list_elem_of_singleton.
  - vm_compute. reflexivity.
Defined.

Lemma X28_main_repository_witness :
  ∃ g s', generate EuroMillion counting = (Ok g, s') ∧
    main fixed_width_strptime disk_two_files 1 (Some [loto_txt]) []
      "euromillion" None counting
    = Some (Finished,
            [WarnNoFile; PrintGeneration EuroMillion;
             EchoTirage (LotoResult_str g)],
            s').
Proof.
  apply (proj2 (X28_main_repository fixed_width_strptime disk_two_files 0
                  [loto_txt] "euromillion" None counting)).
  - reflexivity.
  - vm_compute. reflexivity.
Defined.
